(** * landsat_utils: radiometric conversions of Landsat scenes

    A shallow embedding of the Python modules [au], [radiance],
    [reflectance], [brightness] and [toar], and the properties of the
    band transforms proved on it.

    Numbers.  Python's [float] and NumPy's [float64] are IEEE 754
    binary64; they are Rocq's primitive [float], whose operations are
    specified by [FloatAxioms] against [SpecFloat].  A band is read as a
    two-dimensional array of binary64 cells (what NumPy computes with
    once a [float64] or an integer band meets a Python [float] scalar).
    The transcendental functions come from the C library behind NumPy
    and are an interface here ([Libm]).

    Effects.  Every conversion is a straight-line program of calls to
    [os.path] and GDAL; it is embedded as a tree of calls ([prog]) that a
    handler runs against a world holding the file system. *)

From Stdlib Require Import ZArith Floats Lia.
From Stdlib Require Reals Lra.
From stdpp Require Import base option list strings gmap.

(* Decimal literals denote the nearest binary64, as in Python. *)
Set Warnings "-inexact-float".

(** ** Python values *)

Module Py.

(** Exceptions the modules raise, or that Python raises under them. *)
Inductive exn : Type :=
| ValueError (msg : string)
| TypeError (msg : string)
| AttributeError (msg : string)
| OverflowError (msg : string)
| RuntimeError (msg : string).

(** The outcome of a call: a value, or a raised exception. *)
Inductive result (A : Type) : Type :=
| Return (a : A)
| Raised (e : exn).
Arguments Return {A} a.
Arguments Raised {A} e.

Definition rbind {A B} (r : result A) (k : A -> result B) : result B :=
  match r with
  | Return a => k a
  | Raised e => Raised e
  end.

(** [float(n)] for a Python [int]: the nearest binary64, ties to even. *)
Definition Z2F (n : Z) : float :=
  SF2Prim (binary_normalize prec emax n 0 false).

(** [int(x)] for a Python [float]: truncation toward zero.  Python
    raises [OverflowError] on an infinity and [ValueError] on a NaN. *)
Definition int (x : float) : result Z :=
  match Prim2SF x with
  | S754_zero _ => Return 0%Z
  | S754_finite s m e =>
      let mag := if (0 <=? e)%Z then (Z.pos m * 2 ^ e)%Z
                 else (Z.pos m / 2 ^ (- e))%Z in
      Return (if s then (- mag)%Z else mag)
  | S754_infinity _ =>
      Raised (OverflowError "cannot convert float infinity to integer")
  | S754_nan => Raised (ValueError "cannot convert float NaN to integer")
  end.

(** Truth value of a [float] in [if x:]: [x != 0.0].  Both zeros are
    false, a NaN is true. *)
Definition truthy (x : float) : bool := negb (x =? 0)%float.

(** [str + str]. *)
Definition concat (a b : string) : string := String.app a b.

(** [sub in s]. *)
Definition contains (s sub : string) : bool :=
  match String.index 0 sub s with
  | Some _ => true
  | None => false
  end.

End Py.

(** ** The C library behind NumPy *)

(** [np.cos], [np.sin], [np.log], [np.radians] and [**] (C's [pow]) on
    binary64.  Their results on finite arguments are whatever the
    platform's library returns: the properties of the transforms hold for
    every implementation. *)
Class Libm : Type := {
  np_cos : float -> float;
  np_sin : float -> float;
  np_log : float -> float;
  np_radians : float -> float;
  py_pow : float -> float -> float
}.

(** The values C99 Annex F (F.9.3.7) fixes for [log] at the two
    infinities; NumPy returns them as they are (with a warning). *)
Record AnnexF (L : Libm) : Prop := {
  log_pinf : np_log infinity = infinity;
  log_ninf : np_log neg_infinity = nan
}.

(** A small implementation of the interface, exact on the special values
    and a low-order polynomial elsewhere.  It shows that the interface,
    with Annex F, is inhabited, and gives the concrete runs below a
    library to call. *)
Definition poly_cos (x : float) : float := (1 - x * x / 2)%float.
Definition poly_sin (x : float) : float := (x - x * x * x / 6)%float.
Definition poly_log (x : float) : float :=
  if (x =? infinity)%float then infinity
  else if (x <? 0)%float then nan
  else if (x =? 0)%float then neg_infinity
  else if is_nan x then nan
  else let y := ((x - 1) / (x + 1))%float in (2 * (y + y * y * y / 3))%float.
Definition poly_pow (x y : float) : float :=
  if (y =? 2)%float then (x * x)%float
  else if (y =? 0.5)%float then PrimFloat.sqrt x
  else nan.

Definition libm_poly : Libm := {|
  np_cos := poly_cos;
  np_sin := poly_sin;
  np_log := poly_log;
  np_radians := fun x => (x * (0x1.921fb54442d18p+1 / 180))%float;
  py_pow := poly_pow
|}.

(** ** NumPy arrays *)

Module np.

(** A two-dimensional [float64] array, as [ReadAsArray] returns a band:
    a list of rows. *)
Abbreviation ndarray := (list (list float)).

(** [np.pi]. *)
Definition pi : float := 0x1.921fb54442d18p+1%float.

(** An elementwise expression over one array: [f(a)] cell by cell. *)
Definition map (f : float -> float) (a : ndarray) : ndarray :=
  (fun row : list float => f <$> row) <$> a.

(** [x == v] for a cell [x] and a scalar [v]: IEEE equality.  When [v]
    is [None] (the band has no nodata value) no cell is equal to it. *)
Definition eq_cell (x : float) (v : option float) : bool :=
  match v with
  | Some n => (x =? n)%float
  | None => false
  end.

(** [a == v]: the boolean array of [x == v], cell by cell. *)
Definition eq (a : ndarray) (v : option float) : list (list bool) :=
  (fun row : list float => (fun x : float => eq_cell x v) <$> row) <$> a.

(** The value a scalar takes when stored into a [float64] array: [None]
    becomes a NaN. *)
Definition as_float (v : option float) : float :=
  match v with
  | Some x => x
  | None => nan
  end.

(** [a[mask] = v]: [v] stored at the cells the mask selects.  The mask
    has the shape of [a] wherever the modules use it. *)
Definition setitem (a : ndarray) (mask : list (list bool)) (v : option float)
  : ndarray :=
  zip_with (zip_with (fun (x : float) (b : bool) =>
                        if b then as_float v else x)) a mask.

(** [a[i, j]], when the cell exists. *)
Definition item {A} (a : list (list A)) (i j : nat) : option A :=
  match a !! i with
  | Some row => row !! j
  | None => None
  end.

(** [a[i, j] == v]: the cell exists and IEEE equality holds. *)
Definition item_eq (a : ndarray) (i j : nat) (v : float) : bool :=
  match item a i j with
  | Some t => (t =? v)%float
  | None => false
  end.

End np.

(** ** The operating system and GDAL *)

Module gdal.

(** Handles.  A dataset handle is the number GDAL gave it; a band is a
    band number of a dataset; a driver goes by its short name. *)
Inductive Dataset : Type :=
| DatasetH (id : nat).
Inductive Band : Type :=
| BandH (ds : Dataset) (n : Z).
Inductive Driver : Type :=
| DriverH (name : string).

Inductive GDALDataType : Type :=
| GDT_Byte | GDT_UInt16 | GDT_Int16 | GDT_Float32 | GDT_Float64.

(** The calls the modules make, each with the type of what it returns.
    A call that returns an object returns [None] when GDAL fails (GDAL's
    Python bindings without [UseExceptions]).  [DelDataset] and [DelBand]
    are the closing assignments [x = None]: the reference is dropped, and
    GDAL closes a dataset when its last reference goes. *)
Inductive call : Type -> Type :=
| os_path_exists (path : string) : call bool
| Open (path : string) : call (option Dataset)
| GetDriverByName (name : string) : call (option Driver)
| Create (drv : Driver) (path : string) (xsize ysize bands : Z)
    (t : GDALDataType) : call (option Dataset)
| RasterXSize (ds : Dataset) : call Z
| RasterYSize (ds : Dataset) : call Z
| GetGeoTransform (ds : Dataset) : call (list float)
| SetGeoTransform (ds : Dataset) (gt : list float) : call unit
| GetProjection (ds : Dataset) : call string
| SetProjection (ds : Dataset) (wkt : string) : call unit
| GetRasterBand (ds : Dataset) (n : Z) : call (option Band)
| GetNoDataValue (b : Band) : call (option float)
| SetNoDataValue (b : Band) (v : option float) : call unit
| ReadAsArray (b : Band) : call np.ndarray
| WriteArray (b : Band) (a : np.ndarray) : call unit
| FlushCache (ds : Dataset) : call unit
| DelDataset (ds : option Dataset) : call unit
| DelBand (b : option Band) : call unit.

(** A call as it shows in a trace, with the answer it got. *)
Inductive event : Type :=
| Ev {B : Type} (c : call B) (answer : Py.result B).

(** A program: it returns, raises, or makes a call and goes on with the
    answer. *)
Inductive prog (A : Type) : Type :=
| Ret (a : A)
| Throw (e : Py.exn)
| Call {B : Type} (c : call B) (k : B -> prog A).
Arguments Ret {A} a.
Arguments Throw {A} e.
Arguments Call {A B} c k.

Fixpoint bind {A B} (p : prog A) (f : A -> prog B) : prog B :=
  match p with
  | Ret a => f a
  | Throw e => Throw e
  | Call c k => Call c (fun b => bind (k b) f)
  end.

#[global] Instance prog_ret : MRet prog := fun A a => Ret a.
#[global] Instance prog_bind : MBind prog := fun A B f p => bind p f.

(** One call, returning its answer. *)
Definition do {B} (c : call B) : prog B := Call c Ret.

(** [o.name(...)]: the method [m] of the object [o].  Python raises
    [AttributeError] when [o] is [None]. *)
Definition meth {H A} (o : option H) (name : string) (m : H -> prog A)
  : prog A :=
  match o with
  | Some h => m h
  | None =>
      Throw (Py.AttributeError
               (Py.concat "'NoneType' object has no attribute '"
                  (Py.concat name "'")))
  end.

(** *** The world a program runs in *)

Record raster : Type := {
  xsize : Z;
  ysize : Z;
  dtype : GDALDataType;
  geotransform : list float;
  projection : string;
  nodata : option float;
  band1 : np.ndarray
}.

Inductive file : Type :=
| RasterFile (r : raster)
| OtherFile (content : string).

(** The files by path, and the paths of the datasets opened so far (the
    handle [DatasetH n] is the [n]-th of them). *)
Record world : Type := {
  files : gmap string file;
  opened : list string
}.

(** [os.path.exists(path)] in a world. *)
Definition path_exists (w : world) (path : string) : bool :=
  bool_decide (is_Some (files w !! path)).

(** A system answers every call, possibly changing the world or raising.
    Whatever GDAL does, [os.path.exists] reads the file system and
    changes nothing. *)
Record system : Type := {
  handle : forall B, call B -> world -> Py.result B * world;
  handle_exists : forall path w,
    handle bool (os_path_exists path) w = (Py.Return (path_exists w path), w)
}.

(** Running a program: its outcome, the world it leaves, and the calls it
    made, in order. *)
Fixpoint exec {A} (S : system) (p : prog A) (w : world)
  : Py.result A * world * list event :=
  match p with
  | Ret a => (Py.Return a, w, [])
  | Throw e => (Py.Raised e, w, [])
  | Call c k =>
      match handle S _ c w with
      | (Py.Return b, w') =>
          let '(r, w'', t) := exec S (k b) w' in
          (r, w'', Ev c (Py.Return b) :: t)
      | (Py.Raised e, w') => (Py.Raised e, w', [Ev c (Py.Raised e)])
      end
  end.

(** What a trace shows of the arrays: those written, those read, and the
    nodata values read. *)
Definition written (t : list event) : list np.ndarray :=
  t ≫= (fun ev =>
          match ev with
          | Ev c _ =>
              match c with
              | WriteArray _ a => [a]
              | _ => []
              end
          end).

Definition arrays_read (t : list event) : list np.ndarray :=
  t ≫= (fun ev =>
          match ev with
          | Ev c r =>
              match c in call B return Py.result B -> list np.ndarray with
              | ReadAsArray _ =>
                  fun r => match r with
                           | Py.Return a => [a]
                           | Py.Raised _ => []
                           end
              | _ => fun _ => []
              end r
          end).

Definition nodata_read (t : list event) : list (option float) :=
  t ≫= (fun ev =>
          match ev with
          | Ev c r =>
              match c in call B return Py.result B -> list (option float) with
              | GetNoDataValue _ =>
                  fun r => match r with
                           | Py.Return v => [v]
                           | Py.Raised _ => []
                           end
              | _ => fun _ => []
              end r
          end).

End gdal.

(** ** radiance.py *)

Module radiance.
Import gdal.
Local Open Scope float_scope.

(** The array statements of [gainbias]: [trg_ar = gain * src_ar + bias],
    then [trg_ar[src_ar == no_data] = no_data]. *)
Definition gainbias_ar (gain bias : float) (no_data : option float)
  (src_ar : np.ndarray) : np.ndarray :=
  let trg_ar := np.map (λ src, gain * src + bias) src_ar in
  np.setitem trg_ar (np.eq src_ar no_data) no_data.

(** Digital numbers to TOA radiance, gain and bias method. *)
Definition gainbias (input_scene : string) (gain bias : float)
  (output_scene : string) : prog unit :=
  (* ensure output does not already exist *)
  output_exists ← do (os_path_exists output_scene);
  if (output_exists : bool) then
    Throw (Py.ValueError (Py.concat output_scene " already exists!"))
  else
    (* open source dataset *)
    src_ds ← do (Open input_scene);
    src_band ← meth src_ds "GetRasterBand" (λ ds, do (GetRasterBand ds 1));
    (* get source nodata value *)
    no_data ← meth src_band "GetNoDataValue" (λ b, do (GetNoDataValue b));
    (* read in source array *)
    src_ar ← meth src_band "ReadAsArray" (λ b, do (ReadAsArray b));
    (* create target dataset *)
    drv ← do (GetDriverByName "GTiff");
    trg_ds ← meth drv "Create" (λ d,
      xsize ← meth src_ds "RasterXSize" (λ ds, do (RasterXSize ds));
      ysize ← meth src_ds "RasterYSize" (λ ds, do (RasterYSize ds));
      do (Create d output_scene xsize ysize 1 GDT_Float32));
    (* set target metadata *)
    meth trg_ds "SetGeoTransform" (λ t,
      gt ← meth src_ds "GetGeoTransform" (λ ds, do (GetGeoTransform ds));
      do (SetGeoTransform t gt));;
    meth trg_ds "SetProjection" (λ t,
      wkt ← meth src_ds "GetProjection" (λ ds, do (GetProjection ds));
      do (SetProjection t wkt));;
    (* get target band *)
    trg_band ← meth trg_ds "GetRasterBand" (λ t, do (GetRasterBand t 1));
    (* set target nodata value *)
    meth trg_band "SetNoDataValue" (λ b, do (SetNoDataValue b no_data));;
    (* convert *)
    let trg_ar := gainbias_ar gain bias no_data src_ar in
    (* write to band *)
    meth trg_band "WriteArray" (λ b, do (WriteArray b trg_ar));;
    (* close handles *)
    meth trg_ds "FlushCache" (λ t, do (FlushCache t));;
    do (DelDataset trg_ds);;
    do (DelBand trg_band);;
    do (DelDataset src_ds);;
    do (DelBand src_band).

(** The array statements of [scaling]. *)
Definition scaling_ar (lmin lmax qcalmin qcalmax : float)
  (no_data : option float) (src_ar : np.ndarray) : np.ndarray :=
  let trg_ar :=
    np.map (λ src, ((lmax - lmin) / (qcalmax - qcalmin)) * (src - qcalmin)
                   + lmin) src_ar in
  np.setitem trg_ar (np.eq src_ar no_data) no_data.

(** Digital numbers to TOA radiance, spectral radiance scaling method. *)
Definition scaling (input_scene : string) (lmin lmax qcalmin qcalmax : float)
  (output_scene : string) : prog unit :=
  (* ensure output does not already exist *)
  output_exists ← do (os_path_exists output_scene);
  if (output_exists : bool) then
    Throw (Py.ValueError (Py.concat output_scene " already exists!"))
  else
    (* open source dataset *)
    src_ds ← do (Open input_scene);
    src_band ← meth src_ds "GetRasterBand" (λ ds, do (GetRasterBand ds 1));
    (* get source nodata value *)
    no_data ← meth src_band "GetNoDataValue" (λ b, do (GetNoDataValue b));
    (* read in source array *)
    src_ar ← meth src_band "ReadAsArray" (λ b, do (ReadAsArray b));
    (* create target dataset *)
    drv ← do (GetDriverByName "GTiff");
    trg_ds ← meth drv "Create" (λ d,
      xsize ← meth src_ds "RasterXSize" (λ ds, do (RasterXSize ds));
      ysize ← meth src_ds "RasterYSize" (λ ds, do (RasterYSize ds));
      do (Create d output_scene xsize ysize 1 GDT_Float32));
    (* set target metadata *)
    meth trg_ds "SetGeoTransform" (λ t,
      gt ← meth src_ds "GetGeoTransform" (λ ds, do (GetGeoTransform ds));
      do (SetGeoTransform t gt));;
    meth trg_ds "SetProjection" (λ t,
      wkt ← meth src_ds "GetProjection" (λ ds, do (GetProjection ds));
      do (SetProjection t wkt));;
    (* get target band *)
    trg_band ← meth trg_ds "GetRasterBand" (λ t, do (GetRasterBand t 1));
    (* set target nodata value *)
    meth trg_band "SetNoDataValue" (λ b, do (SetNoDataValue b no_data));;
    (* convert *)
    let trg_ar := scaling_ar lmin lmax qcalmin qcalmax no_data src_ar in
    (* write to band *)
    meth trg_band "WriteArray" (λ b, do (WriteArray b trg_ar));;
    (* close handles *)
    meth trg_ds "FlushCache" (λ t, do (FlushCache t));;
    do (DelDataset trg_ds);;
    do (DelBand trg_band);;
    do (DelDataset src_ds);;
    do (DelBand src_band).

End radiance.

(** ** reflectance.py *)

Module reflectance.
Import gdal.
Local Open Scope float_scope.

Section WithLibm.
Context {L : Libm}.

(** The array statements of [gainbias]: the linear step, the division by
    the sine of the sun elevation, then the nodata mask. *)
Definition gainbias_ar (gain bias sun_elev : float) (no_data : option float)
  (src_ar : np.ndarray) : np.ndarray :=
  let trg_ar := np.map (λ src, gain * src + bias) src_ar in
  let trg_ar := np.map (λ trg, trg / np_sin (np_radians sun_elev)) trg_ar in
  np.setitem trg_ar (np.eq src_ar no_data) no_data.

(** Digital numbers to TOA reflectance, gain and bias method. *)
Definition gainbias (input_scene : string) (gain bias sun_elev : float)
  (output_scene : string) : prog unit :=
  (* ensure output does not already exist *)
  output_exists ← do (os_path_exists output_scene);
  if (output_exists : bool) then
    Throw (Py.ValueError (Py.concat output_scene " already exists!"))
  else
    (* open source dataset *)
    src_ds ← do (Open input_scene);
    src_band ← meth src_ds "GetRasterBand" (λ ds, do (GetRasterBand ds 1));
    (* get source nodata value *)
    no_data ← meth src_band "GetNoDataValue" (λ b, do (GetNoDataValue b));
    (* read in source array *)
    src_ar ← meth src_band "ReadAsArray" (λ b, do (ReadAsArray b));
    (* create target dataset *)
    drv ← do (GetDriverByName "GTiff");
    trg_ds ← meth drv "Create" (λ d,
      xsize ← meth src_ds "RasterXSize" (λ ds, do (RasterXSize ds));
      ysize ← meth src_ds "RasterYSize" (λ ds, do (RasterYSize ds));
      do (Create d output_scene xsize ysize 1 GDT_Float32));
    (* set target metadata *)
    meth trg_ds "SetGeoTransform" (λ t,
      gt ← meth src_ds "GetGeoTransform" (λ ds, do (GetGeoTransform ds));
      do (SetGeoTransform t gt));;
    meth trg_ds "SetProjection" (λ t,
      wkt ← meth src_ds "GetProjection" (λ ds, do (GetProjection ds));
      do (SetProjection t wkt));;
    (* get target band *)
    trg_band ← meth trg_ds "GetRasterBand" (λ t, do (GetRasterBand t 1));
    (* set target nodata value *)
    meth trg_band "SetNoDataValue" (λ b, do (SetNoDataValue b no_data));;
    (* convert *)
    let trg_ar := gainbias_ar gain bias sun_elev no_data src_ar in
    (* write to band *)
    meth trg_band "WriteArray" (λ b, do (WriteArray b trg_ar));;
    (* close handles *)
    meth trg_ds "FlushCache" (λ t, do (FlushCache t));;
    do (DelDataset trg_ds);;
    do (DelBand trg_band);;
    do (DelDataset src_ds);;
    do (DelBand src_band).

(** The array statements of [ref].  [if sun_elev:] is the truth value of
    a float. *)
Definition ref_ar (earth_sun_dist sun_elev esun : float)
  (no_data : option float) (src_ar : np.ndarray) : np.ndarray :=
  let solar_zenith := 90 - sun_elev in
  let trg_ar :=
    np.map (λ src, np.pi * src * py_pow earth_sun_dist 2 / esun
                   * np_cos (np_radians solar_zenith)) src_ar in
  let trg_ar :=
    if Py.truthy sun_elev
    then np.map (λ trg, trg / np_sin (np_radians sun_elev)) trg_ar
    else trg_ar in
  np.setitem trg_ar (np.eq src_ar no_data) no_data.

(** TOA radiance to TOA reflectance. *)
Definition ref (input_scene : string) (earth_sun_dist sun_elev esun : float)
  (output_scene : string) : prog unit :=
  (* ensure output does not already exist *)
  output_exists ← do (os_path_exists output_scene);
  if (output_exists : bool) then
    Throw (Py.ValueError (Py.concat output_scene " already exists!"))
  else
    (* open source dataset *)
    src_ds ← do (Open input_scene);
    src_band ← meth src_ds "GetRasterBand" (λ ds, do (GetRasterBand ds 1));
    (* get source nodata value *)
    no_data ← meth src_band "GetNoDataValue" (λ b, do (GetNoDataValue b));
    (* read in source array *)
    src_ar ← meth src_band "ReadAsArray" (λ b, do (ReadAsArray b));
    (* create target dataset *)
    drv ← do (GetDriverByName "GTiff");
    trg_ds ← meth drv "Create" (λ d,
      xsize ← meth src_ds "RasterXSize" (λ ds, do (RasterXSize ds));
      ysize ← meth src_ds "RasterYSize" (λ ds, do (RasterYSize ds));
      do (Create d output_scene xsize ysize 1 GDT_Float32));
    (* set target metadata *)
    meth trg_ds "SetGeoTransform" (λ t,
      gt ← meth src_ds "GetGeoTransform" (λ ds, do (GetGeoTransform ds));
      do (SetGeoTransform t gt));;
    meth trg_ds "SetProjection" (λ t,
      wkt ← meth src_ds "GetProjection" (λ ds, do (GetProjection ds));
      do (SetProjection t wkt));;
    (* get target band *)
    trg_band ← meth trg_ds "GetRasterBand" (λ t, do (GetRasterBand t 1));
    (* set target nodata value *)
    meth trg_band "SetNoDataValue" (λ b, do (SetNoDataValue b no_data));;
    (* convert *)
    let trg_ar := ref_ar earth_sun_dist sun_elev esun no_data src_ar in
    (* write to band *)
    meth trg_band "WriteArray" (λ b, do (WriteArray b trg_ar));;
    (* close handles *)
    meth trg_ds "FlushCache" (λ t, do (FlushCache t));;
    do (DelDataset trg_ds);;
    do (DelBand trg_band);;
    do (DelDataset src_ds);;
    do (DelBand src_band).

End WithLibm.

End reflectance.

(** ** brightness.py *)

Module brightness.
Import gdal.
Local Open Scope float_scope.

Section WithLibm.
Context {L : Libm}.

(** The array statements of [toa_rad_to_toa_bright]. *)
Definition toa_rad_to_toa_bright_ar (k1 k2 : float) (no_data : option float)
  (src_ar : np.ndarray) : np.ndarray :=
  let trg_ar := np.map (λ src, k2 / np_log (k1 / src + 1)) src_ar in
  np.setitem trg_ar (np.eq src_ar no_data) no_data.

(** TOA radiance to TOA brightness temperature (Kelvin). *)
Definition toa_rad_to_toa_bright (input_scene : string) (k1 k2 : float)
  (output_scene : string) : prog unit :=
  (* ensure output does not already exist *)
  output_exists ← do (os_path_exists output_scene);
  if (output_exists : bool) then
    Throw (Py.ValueError (Py.concat output_scene " already exists!"))
  else
    (* open source dataset *)
    src_ds ← do (Open input_scene);
    src_band ← meth src_ds "GetRasterBand" (λ ds, do (GetRasterBand ds 1));
    (* get source nodata value *)
    no_data ← meth src_band "GetNoDataValue" (λ b, do (GetNoDataValue b));
    (* read in source array *)
    src_ar ← meth src_band "ReadAsArray" (λ b, do (ReadAsArray b));
    (* create target dataset *)
    drv ← do (GetDriverByName "GTiff");
    trg_ds ← meth drv "Create" (λ d,
      xsize ← meth src_ds "RasterXSize" (λ ds, do (RasterXSize ds));
      ysize ← meth src_ds "RasterYSize" (λ ds, do (RasterYSize ds));
      do (Create d output_scene xsize ysize 1 GDT_Float32));
    (* set target metadata *)
    meth trg_ds "SetGeoTransform" (λ t,
      gt ← meth src_ds "GetGeoTransform" (λ ds, do (GetGeoTransform ds));
      do (SetGeoTransform t gt));;
    meth trg_ds "SetProjection" (λ t,
      wkt ← meth src_ds "GetProjection" (λ ds, do (GetProjection ds));
      do (SetProjection t wkt));;
    (* get target band *)
    trg_band ← meth trg_ds "GetRasterBand" (λ t, do (GetRasterBand t 1));
    (* set target nodata value *)
    meth trg_band "SetNoDataValue" (λ b, do (SetNoDataValue b no_data));;
    (* convert *)
    let trg_ar := toa_rad_to_toa_bright_ar k1 k2 no_data src_ar in
    (* write to band *)
    meth trg_band "WriteArray" (λ b, do (WriteArray b trg_ar));;
    (* close handles *)
    meth trg_ds "FlushCache" (λ t, do (FlushCache t));;
    do (DelDataset trg_ds);;
    do (DelBand trg_band);;
    do (DelDataset src_ds);;
    do (DelBand src_band).

(** The array statements of [dn_to_toa_bright]: radiance first, then
    brightness; the mask compares [src_ar], not [rad_ar]. *)
Definition dn_to_toa_bright_ar (gain bias k1 k2 : float)
  (no_data : option float) (src_ar : np.ndarray) : np.ndarray :=
  let rad_ar := np.map (λ src, gain * src + bias) src_ar in
  let bri_ar := np.map (λ rad, k2 / np_log (k1 / rad + 1)) rad_ar in
  np.setitem bri_ar (np.eq src_ar no_data) no_data.

(** Digital numbers to TOA brightness temperature (Kelvin). *)
Definition dn_to_toa_bright (input_scene : string) (gain bias k1 k2 : float)
  (output_scene : string) : prog unit :=
  (* ensure output does not already exist *)
  output_exists ← do (os_path_exists output_scene);
  if (output_exists : bool) then
    Throw (Py.ValueError (Py.concat output_scene " already exists!"))
  else
    (* open source dataset *)
    src_ds ← do (Open input_scene);
    src_band ← meth src_ds "GetRasterBand" (λ ds, do (GetRasterBand ds 1));
    (* get source nodata value *)
    no_data ← meth src_band "GetNoDataValue" (λ b, do (GetNoDataValue b));
    (* read in source array *)
    src_ar ← meth src_band "ReadAsArray" (λ b, do (ReadAsArray b));
    (* create target dataset *)
    drv ← do (GetDriverByName "GTiff");
    trg_ds ← meth drv "Create" (λ d,
      xsize ← meth src_ds "RasterXSize" (λ ds, do (RasterXSize ds));
      ysize ← meth src_ds "RasterYSize" (λ ds, do (RasterYSize ds));
      do (Create d output_scene xsize ysize 1 GDT_Float32));
    (* set target metadata *)
    meth trg_ds "SetGeoTransform" (λ t,
      gt ← meth src_ds "GetGeoTransform" (λ ds, do (GetGeoTransform ds));
      do (SetGeoTransform t gt));;
    meth trg_ds "SetProjection" (λ t,
      wkt ← meth src_ds "GetProjection" (λ ds, do (GetProjection ds));
      do (SetProjection t wkt));;
    (* get target band *)
    trg_band ← meth trg_ds "GetRasterBand" (λ t, do (GetRasterBand t 1));
    (* set target nodata value *)
    meth trg_band "SetNoDataValue" (λ b, do (SetNoDataValue b no_data));;
    (* convert *)
    let trg_ar := dn_to_toa_bright_ar gain bias k1 k2 no_data src_ar in
    (* write to band *)
    meth trg_band "WriteArray" (λ b, do (WriteArray b trg_ar));;
    (* close handles *)
    meth trg_ds "FlushCache" (λ t, do (FlushCache t));;
    do (DelDataset trg_ds);;
    do (DelBand trg_band);;
    do (DelDataset src_ds);;
    do (DelBand src_band).

End WithLibm.

End brightness.

(** ** toar.py *)

Module toar.
Import gdal.
Local Open Scope float_scope.

(** The array statements of [toa_radiance]. *)
Definition toa_radiance_ar (gain bias : float) (no_data : option float)
  (src_ar : np.ndarray) : np.ndarray :=
  let trg_ar := np.map (λ src, gain * src + bias) src_ar in
  np.setitem trg_ar (np.eq src_ar no_data) no_data.

(** Digital numbers to TOA radiance. *)
Definition toa_radiance (input_scene : string) (gain bias : float)
  (output_scene : string) : prog unit :=
  (* ensure output does not already exist *)
  output_exists ← do (os_path_exists output_scene);
  if (output_exists : bool) then
    Throw (Py.ValueError (Py.concat output_scene " already exists!"))
  else
    (* open source dataset *)
    src_ds ← do (Open input_scene);
    src_band ← meth src_ds "GetRasterBand" (λ ds, do (GetRasterBand ds 1));
    (* get source nodata value *)
    no_data ← meth src_band "GetNoDataValue" (λ b, do (GetNoDataValue b));
    (* read in source array *)
    src_ar ← meth src_band "ReadAsArray" (λ b, do (ReadAsArray b));
    (* create target dataset *)
    drv ← do (GetDriverByName "GTiff");
    trg_ds ← meth drv "Create" (λ d,
      xsize ← meth src_ds "RasterXSize" (λ ds, do (RasterXSize ds));
      ysize ← meth src_ds "RasterYSize" (λ ds, do (RasterYSize ds));
      do (Create d output_scene xsize ysize 1 GDT_Float32));
    (* set target metadata *)
    meth trg_ds "SetGeoTransform" (λ t,
      gt ← meth src_ds "GetGeoTransform" (λ ds, do (GetGeoTransform ds));
      do (SetGeoTransform t gt));;
    meth trg_ds "SetProjection" (λ t,
      wkt ← meth src_ds "GetProjection" (λ ds, do (GetProjection ds));
      do (SetProjection t wkt));;
    (* get target band *)
    trg_band ← meth trg_ds "GetRasterBand" (λ t, do (GetRasterBand t 1));
    (* set target nodata value *)
    meth trg_band "SetNoDataValue" (λ b, do (SetNoDataValue b no_data));;
    (* convert *)
    let trg_ar := toa_radiance_ar gain bias no_data src_ar in
    (* write to band *)
    meth trg_band "WriteArray" (λ b, do (WriteArray b trg_ar));;
    (* close handles *)
    meth trg_ds "FlushCache" (λ t, do (FlushCache t));;
    do (DelDataset trg_ds);;
    do (DelBand trg_band);;
    do (DelDataset src_ds);;
    do (DelBand src_band).

(** The array statements of [toa_reflectance]: the same two statements;
    the function takes no sun elevation. *)
Definition toa_reflectance_ar (gain bias : float) (no_data : option float)
  (src_ar : np.ndarray) : np.ndarray :=
  let trg_ar := np.map (λ src, gain * src + bias) src_ar in
  np.setitem trg_ar (np.eq src_ar no_data) no_data.

(** "TOA radiance to TOA reflectance", in the docstring's words. *)
Definition toa_reflectance (input_scene : string) (gain bias : float)
  (output_scene : string) : prog unit :=
  (* ensure output does not already exist *)
  output_exists ← do (os_path_exists output_scene);
  if (output_exists : bool) then
    Throw (Py.ValueError (Py.concat output_scene " already exists!"))
  else
    (* open source dataset *)
    src_ds ← do (Open input_scene);
    src_band ← meth src_ds "GetRasterBand" (λ ds, do (GetRasterBand ds 1));
    (* get source nodata value *)
    no_data ← meth src_band "GetNoDataValue" (λ b, do (GetNoDataValue b));
    (* read in source array *)
    src_ar ← meth src_band "ReadAsArray" (λ b, do (ReadAsArray b));
    (* create target dataset *)
    drv ← do (GetDriverByName "GTiff");
    trg_ds ← meth drv "Create" (λ d,
      xsize ← meth src_ds "RasterXSize" (λ ds, do (RasterXSize ds));
      ysize ← meth src_ds "RasterYSize" (λ ds, do (RasterYSize ds));
      do (Create d output_scene xsize ysize 1 GDT_Float32));
    (* set target metadata *)
    meth trg_ds "SetGeoTransform" (λ t,
      gt ← meth src_ds "GetGeoTransform" (λ ds, do (GetGeoTransform ds));
      do (SetGeoTransform t gt));;
    meth trg_ds "SetProjection" (λ t,
      wkt ← meth src_ds "GetProjection" (λ ds, do (GetProjection ds));
      do (SetProjection t wkt));;
    (* get target band *)
    trg_band ← meth trg_ds "GetRasterBand" (λ t, do (GetRasterBand t 1));
    (* set target nodata value *)
    meth trg_band "SetNoDataValue" (λ b, do (SetNoDataValue b no_data));;
    (* convert *)
    let trg_ar := toa_reflectance_ar gain bias no_data src_ar in
    (* write to band *)
    meth trg_band "WriteArray" (λ b, do (WriteArray b trg_ar));;
    (* close handles *)
    meth trg_ds "FlushCache" (λ t, do (FlushCache t));;
    do (DelDataset trg_ds);;
    do (DelBand trg_band);;
    do (DelDataset src_ds);;
    do (DelBand src_band).

Section WithLibm.
Context {L : Libm}.

(** The array statements of [toa_brightness]. *)
Definition toa_brightness_ar (k1 k2 : float) (no_data : option float)
  (src_ar : np.ndarray) : np.ndarray :=
  let trg_ar := np.map (λ src, k2 / np_log (k1 / src + 1)) src_ar in
  np.setitem trg_ar (np.eq src_ar no_data) no_data.

(** TOA radiance to TOA brightness temperature (Kelvin). *)
Definition toa_brightness (input_scene : string) (k1 k2 : float)
  (output_scene : string) : prog unit :=
  (* ensure output does not already exist *)
  output_exists ← do (os_path_exists output_scene);
  if (output_exists : bool) then
    Throw (Py.ValueError (Py.concat output_scene " already exists!"))
  else
    (* open source dataset *)
    src_ds ← do (Open input_scene);
    src_band ← meth src_ds "GetRasterBand" (λ ds, do (GetRasterBand ds 1));
    (* get source nodata value *)
    no_data ← meth src_band "GetNoDataValue" (λ b, do (GetNoDataValue b));
    (* read in source array *)
    src_ar ← meth src_band "ReadAsArray" (λ b, do (ReadAsArray b));
    (* create target dataset *)
    drv ← do (GetDriverByName "GTiff");
    trg_ds ← meth drv "Create" (λ d,
      xsize ← meth src_ds "RasterXSize" (λ ds, do (RasterXSize ds));
      ysize ← meth src_ds "RasterYSize" (λ ds, do (RasterYSize ds));
      do (Create d output_scene xsize ysize 1 GDT_Float32));
    (* set target metadata *)
    meth trg_ds "SetGeoTransform" (λ t,
      gt ← meth src_ds "GetGeoTransform" (λ ds, do (GetGeoTransform ds));
      do (SetGeoTransform t gt));;
    meth trg_ds "SetProjection" (λ t,
      wkt ← meth src_ds "GetProjection" (λ ds, do (GetProjection ds));
      do (SetProjection t wkt));;
    (* get target band *)
    trg_band ← meth trg_ds "GetRasterBand" (λ t, do (GetRasterBand t 1));
    (* set target nodata value *)
    meth trg_band "SetNoDataValue" (λ b, do (SetNoDataValue b no_data));;
    (* convert *)
    let trg_ar := toa_brightness_ar k1 k2 no_data src_ar in
    (* write to band *)
    meth trg_band "WriteArray" (λ b, do (WriteArray b trg_ar));;
    (* close handles *)
    meth trg_ds "FlushCache" (λ t, do (FlushCache t));;
    do (DelDataset trg_ds);;
    do (DelBand trg_band);;
    do (DelDataset src_ds);;
    do (DelBand src_band).

End WithLibm.

End toar.

(** ** Python's datetime *)

Module datetime.
Local Open Scope Z_scope.

(** A [datetime.datetime] (the fields [au] reads). *)
Record datetime : Type := {
  year : Z;
  month : Z;
  day : Z;
  hour : Z;
  minute : Z;
  second : Z
}.

Definition is_leap (y : Z) : bool :=
  (y mod 4 =? 0) && (negb (y mod 100 =? 0) || (y mod 400 =? 0)).

Definition days_in_month (y m : Z) : Z :=
  if m =? 2 then (if is_leap y then 29 else 28)
  else if (m =? 4) || (m =? 6) || (m =? 9) || (m =? 11) then 30
  else 31.

(** Days of the year before the first of month [m]. *)
Definition days_before_month (y m : Z) : Z :=
  nth (Z.to_nat (m - 1))
    [0; 31; 59; 90; 120; 151; 181; 212; 243; 273; 304; 334] 0
  + (if (2 <? m) && is_leap y then 1 else 0).

(** What the constructor of [datetime.datetime] accepts. *)
Definition valid (d : datetime) : Prop :=
  1 <= year d <= 9999 /\ 1 <= month d <= 12 /\
  1 <= day d <= days_in_month (year d) (month d) /\
  0 <= hour d <= 23 /\ 0 <= minute d <= 59 /\ 0 <= second d <= 59.

(** [d.timetuple().tm_yday]: the day of the year, from 1. *)
Definition tm_yday (d : datetime) : Z :=
  days_before_month (year d) (month d) + day d.

End datetime.

(** The objects a caller may pass where a date is expected. *)
Inductive object : Type :=
| py_datetime (d : datetime.datetime)
| py_date (year month day : Z)
| py_str (s : string)
| py_int (n : Z)
| py_float (x : float)
| py_None.

#[global] Instance result_ret : MRet Py.result := fun A a => Py.Return a.
#[global] Instance result_bind : MBind Py.result :=
  fun A B f r => Py.rbind r f.

(** ** au.py *)

Module au.
Import datetime.
Local Open Scope float_scope.

Section WithLibm.
Context {L : Libm}.

(** The list the [ValueError] prints: [repr] of the five names. *)
Definition formulas : list string :=
  ["Meeus"; "Spencer"; "Mather"; "ESA"; "Duffie"].

Definition formulas_repr : string :=
  "['Meeus', 'Spencer', 'Mather', 'ESA', 'Duffie']".

(** Earth-Sun distance in astronomical units for a date.  [date] is any
    object; [formula] defaults to ["Meeus"] in Python. *)
Definition earth_sun_dist (date : object) (formula : string)
  : Py.result float :=
  match date with
  | py_datetime date =>
      let doy := tm_yday date in
      if String.eqb formula "Meeus" then
        let '(year, month) :=
          if (month date <=? 2)%Z
          then (year date - 1, month date + 12)%Z
          else (year date, month date) in
        let day := day date in
        let ut := Py.Z2F (hour date) + (Py.Z2F (minute date) / 60)
                  + (Py.Z2F (second date) / 3600) in
        a ← Py.int (Py.Z2F year / 100);
        a4 ← Py.int (Py.Z2F a / 4);
        let b := (2 - a + a4)%Z in
        j1 ← Py.int (365.25 * Py.Z2F (year + 4716));
        j2 ← Py.int (30.6001 * Py.Z2F (month + 1));
        let jd := Py.Z2F (j1 + j2 + day) + (ut / 24.0) + Py.Z2F b - 1524.5 in
        let d := jd - 2451545.0 in
        let g := np_radians (357.529 + 0.98560028 * d) in
        Py.Return (1.00014 - 0.01671 * np_cos g - 0.00014 * np_cos (2 * g))
      else if String.eqb formula "Spencer" then
        let p := 2 * np.pi * Py.Z2F (doy - 1) / 365 in
        Py.Return
          (py_pow (1 / (1.000110 + 0.034221 * np_cos p + 0.001280 * np_sin p
                        + 0.000719 * np_cos (2 * p)
                        + 0.000077 * np_sin (2 * p))) 0.5)
      else if String.eqb formula "Mather" then
        Py.Return (1 / (1 - 0.016729 * np_cos (0.9856 * Py.Z2F (doy - 4))))
      else if String.eqb formula "ESA" then
        Py.Return
          (1 - 0.016729
               * np_cos ((2 * np.pi) * (0.9856 * Py.Z2F (doy - 4) / 360)))
      else if String.eqb formula "Duffie" then
        Py.Return (1 + 0.033 * np_cos (Py.Z2F (doy * 2) * np.pi / 365))
      else
        Py.Raised
          (Py.ValueError
             (Py.concat "Formula must be one of "
                (Py.concat formulas_repr "!")))
  | _ =>
      Py.Raised
        (Py.TypeError "Date must be of type <class 'datetime.datetime'>!")
  end.

End WithLibm.

End au.

(** ** The formulas in exact arithmetic *)

(** The same expressions read over the real numbers: what the binary64
    computation approximates.  Used where a claim is about magnitudes
    (a physical range) or about algebra that rounding breaks. *)
Module ideal.
Import Reals datetime.
Local Open Scope R_scope.

(** [np.radians]. *)
Definition radians (x : R) : R := x * PI / 180.

(** [int(x)]: truncation toward zero. *)
Definition trunc (x : R) : Z :=
  if Rle_dec 0 x then Int_part x else (- Int_part (- x))%Z.

(** [au.earth_sun_dist] on a [datetime]; [None] stands for the
    [ValueError] of an unknown formula. *)
Definition earth_sun_dist (date : datetime) (formula : string) : option R :=
  let doy := tm_yday date in
  if String.eqb formula "Meeus" then
    let '(year, month) :=
      if (month date <=? 2)%Z
      then (year date - 1, month date + 12)%Z
      else (year date, month date) in
    let day := day date in
    let ut := IZR (hour date) + (IZR (minute date) / 60)
              + (IZR (second date) / 3600) in
    let a := trunc (IZR year / 100) in
    let b := (2 - a + trunc (IZR a / 4))%Z in
    let jd := IZR (trunc (365.25 * IZR (year + 4716))
                   + trunc (30.6001 * IZR (month + 1)) + day)
              + (ut / 24.0) + IZR b - 1524.5 in
    let d := jd - 2451545.0 in
    let g := radians (357.529 + 0.98560028 * d) in
    Some (1.00014 - 0.01671 * cos g - 0.00014 * cos (2 * g))
  else if String.eqb formula "Spencer" then
    let p := 2 * PI * IZR (doy - 1) / 365 in
    Some (Rpower (1 / (1.000110 + 0.034221 * cos p + 0.001280 * sin p
                       + 0.000719 * cos (2 * p) + 0.000077 * sin (2 * p)))
            0.5)
  else if String.eqb formula "Mather" then
    Some (1 / (1 - 0.016729 * cos (0.9856 * IZR (doy - 4))))
  else if String.eqb formula "ESA" then
    Some (1 - 0.016729 * cos ((2 * PI) * (0.9856 * IZR (doy - 4) / 360)))
  else if String.eqb formula "Duffie" then
    Some (1 + 0.033 * cos (IZR (doy * 2) * PI / 365))
  else None.

(** One cell of [radiance.scaling], before the nodata mask. *)
Definition scaling_cell (lmin lmax qcalmin qcalmax src : R) : R :=
  ((lmax - lmin) / (qcalmax - qcalmin)) * (src - qcalmin) + lmin.

End ideal.

(** ** A GDAL in memory *)

(** One system to run the programs on: files are rasters held in the
    world, a [Float32] band rounds what is written to binary32, and
    [SetNoDataValue] refuses [None] as the bindings do. *)
Module memgdal.
Import gdal.

(** The nearest binary32, as a binary64. *)
Definition float32 (x : float) : float :=
  match Prim2SF x with
  | S754_finite s m e => SF2Prim (binary_round 24 128 s m e)
  | _ => x
  end.

Definition cast (t : GDALDataType) (x : float) : float :=
  match t with
  | GDT_Float32 => float32 x
  | _ => x
  end.

(** A new raster: zeros, no nodata value, the identity geotransform. *)
Definition blank (x y : Z) (t : GDALDataType) : raster := {|
  xsize := x;
  ysize := y;
  dtype := t;
  geotransform := [0; 1; 0; 0; 0; 1]%float;
  projection := "";
  nodata := None;
  band1 := replicate (Z.to_nat y) (replicate (Z.to_nat x) 0%float)
|}.

Definition set_geotransform (gt : list float) (r : raster) : raster := {|
  xsize := xsize r; ysize := ysize r; dtype := dtype r;
  geotransform := gt;
  projection := projection r; nodata := nodata r; band1 := band1 r
|}.

Definition set_projection (wkt : string) (r : raster) : raster := {|
  xsize := xsize r; ysize := ysize r; dtype := dtype r;
  geotransform := geotransform r;
  projection := wkt;
  nodata := nodata r; band1 := band1 r
|}.

Definition set_nodata (v : float) (r : raster) : raster := {|
  xsize := xsize r; ysize := ysize r; dtype := dtype r;
  geotransform := geotransform r; projection := projection r;
  nodata := Some (cast (dtype r) v);
  band1 := band1 r
|}.

Definition set_band1 (a : np.ndarray) (r : raster) : raster := {|
  xsize := xsize r; ysize := ysize r; dtype := dtype r;
  geotransform := geotransform r; projection := projection r;
  nodata := nodata r;
  band1 := np.map (cast (dtype r)) a
|}.

Definition path_of (w : world) (ds : Dataset) : option string :=
  match ds with DatasetH n => opened w !! n end.

Definition raster_of (w : world) (ds : Dataset) : option raster :=
  match path_of w ds with
  | Some p =>
      match files w !! p with
      | Some (RasterFile r) => Some r
      | _ => None
      end
  | None => None
  end.

Definition bad_handle {B} (w : world) : Py.result B * world :=
  (Py.Raised (Py.RuntimeError "Dataset object has been closed"), w).

(** Read a field of the raster behind a handle. *)
Definition get {B} (w : world) (ds : Dataset) (f : raster -> B)
  : Py.result B * world :=
  match raster_of w ds with
  | Some r => (Py.Return (f r), w)
  | None => bad_handle w
  end.

(** Change the raster behind a handle. *)
Definition put (w : world) (ds : Dataset) (f : raster -> raster)
  : Py.result unit * world :=
  match path_of w ds, raster_of w ds with
  | Some p, Some r =>
      (Py.Return tt,
       {| files := <[p := RasterFile (f r)]> (files w); opened := opened w |})
  | _, _ => bad_handle w
  end.

Definition new_handle (w : world) (p : string) (fs : gmap string file)
  : Py.result (option Dataset) * world :=
  (Py.Return (Some (DatasetH (length (opened w)))),
   {| files := fs; opened := opened w ++ [p] |}).

Definition same_shape (r : raster) (a : np.ndarray) : bool :=
  bool_decide (length a = Z.to_nat (ysize r)) &&
  forallb (fun row : list float =>
             bool_decide (length row = Z.to_nat (xsize r))) a.

Definition handle (B : Type) (c : call B) (w : world)
  : Py.result B * world :=
  match c in call B return Py.result B * world with
  | os_path_exists p => (Py.Return (path_exists w p), w)
  | Open p =>
      match files w !! p with
      | Some (RasterFile _) => new_handle w p (files w)
      | _ => (Py.Return None, w)
      end
  | GetDriverByName name =>
      (Py.Return (if String.eqb name "GTiff" then Some (DriverH name)
                  else None), w)
  | Create _ p x y n t =>
      if ((0 <? x) && (0 <? y) && (n =? 1))%Z
      then new_handle w p (<[p := RasterFile (blank x y t)]> (files w))
      else (Py.Return None, w)
  | RasterXSize ds => get w ds xsize
  | RasterYSize ds => get w ds ysize
  | GetGeoTransform ds => get w ds geotransform
  | SetGeoTransform ds gt => put w ds (set_geotransform gt)
  | GetProjection ds => get w ds projection
  | SetProjection ds wkt => put w ds (set_projection wkt)
  | GetRasterBand ds n =>
      (Py.Return (if (n =? 1)%Z then Some (BandH ds n) else None), w)
  | GetNoDataValue (BandH ds _) => get w ds nodata
  | SetNoDataValue (BandH ds _) v =>
      match v with
      | Some x => put w ds (set_nodata x)
      | None =>
          (Py.Raised
             (Py.TypeError
                "in method 'Band_SetNoDataValue', argument 2 of type 'double'"),
           w)
      end
  | ReadAsArray (BandH ds _) => get w ds band1
  | WriteArray (BandH ds _) a =>
      match raster_of w ds with
      | Some r =>
          if same_shape r a then put w ds (set_band1 a)
          else (Py.Raised (Py.ValueError "array larger than output file"), w)
      | None => bad_handle w
      end
  | FlushCache _ => (Py.Return tt, w)
  | DelDataset _ => (Py.Return tt, w)
  | DelBand _ => (Py.Return tt, w)
  end.

Definition sys : system := {|
  gdal.handle := handle;
  handle_exists := fun path w => eq_refl
|}.

End memgdal.

(** ** The data of the examples *)

Module scenario.
Import gdal.
Local Open Scope float_scope.

(** The band of the end-to-end scenario: [[10, 20], [-1, 30]], with -1
    for nodata. *)
Definition src_ar : np.ndarray := [[10; 20]; [-1; 30]].

Definition source : raster := {|
  xsize := 2;
  ysize := 2;
  dtype := GDT_Float64;
  geotransform := [399960; 30; 0; 4500000; 0; -30];
  projection := "EPSG:32633";
  nodata := Some (-1);
  band1 := src_ar
|}.

(** A file system with the source only, and one where the output path is
    taken by some other file. *)
Definition world0 : world := {|
  files := {[ "in.tif" := RasterFile source ]};
  opened := []
|}.

Definition world1 : world := {|
  files := <["out.tif" := OtherFile "not to be touched"]> (files world0);
  opened := []
|}.

(** 1 January 2020, midnight. *)
Definition new_year : datetime.datetime := {|
  datetime.year := 2020;
  datetime.month := 1;
  datetime.day := 1;
  datetime.hour := 0;
  datetime.minute := 0;
  datetime.second := 0
|}.

End scenario.

(** ** Vocabulary of the proofs *)

(** Zeros and finite numbers, on the specification side of a float. *)
Definition SFfinite (x : spec_float) : bool :=
  match x with
  | S754_zero _ | S754_finite _ _ _ => true
  | _ => false
  end.

Definition SFzero (x : spec_float) : bool :=
  match x with
  | S754_zero _ => true
  | _ => false
  end.

(** The shape every transform has: an elementwise expression [f] of the
    source, then the nodata mask of the source. *)
Definition masked (f : float -> float) (no_data : option float)
  (src_ar : np.ndarray) : np.ndarray :=
  np.setitem (np.map f src_ar) (np.eq src_ar no_data) no_data.

(** One cell of [reflectance.ref], before the mask. *)
Definition ref_cell {L : Libm} (earth_sun_dist sun_elev esun src : float)
  : float :=
  let base := (np.pi * src * py_pow earth_sun_dist 2 / esun
               * np_cos (np_radians (90 - sun_elev)))%float in
  if (sun_elev =? 0)%float then base
  else (base / np_sin (np_radians sun_elev))%float.

(** A property of every run of a program, whatever the system answers:
    [Q] holds of the outcome and the trace at each place the program can
    stop. *)
Fixpoint all_runs {A} (p : gdal.prog A)
  (Q : Py.result A -> list gdal.event -> Prop) : Prop :=
  match p with
  | gdal.Ret a => Q (Py.Return a) []
  | gdal.Throw e => Q (Py.Raised e) []
  | gdal.Call c k =>
      (forall e, Q (Py.Raised e) [gdal.Ev c (Py.Raised e)])
      /\ (forall b,
             all_runs (k b)
               (fun r t => Q r (gdal.Ev c (Py.Return b) :: t)))
  end.

(** A run writes the transform [f] of what it read: one nodata value and
    one array were read and the one array written is [f] of them; or
    nothing was written and the run raised. *)
Definition writes (f : option float -> np.ndarray -> np.ndarray)
  (r : Py.result unit) (t : list gdal.event) : Prop :=
  (exists no_data src_ar,
      gdal.nodata_read t = [no_data] /\ gdal.arrays_read t = [src_ar]
      /\ gdal.written t = [f no_data src_ar])
  \/ (gdal.written t = [] /\ exists e, r = Py.Raised e).

(** The shape of an array: the length of each of its rows. *)
Definition shape (a : np.ndarray) : list nat := length <$> a.

(** Infinities and NaN, on the specification side of a float. *)
Definition SFspecial (x : spec_float) : bool :=
  match x with
  | S754_infinity _ | S754_nan => true
  | _ => false
  end.

(** A nodata value that no cell equals: [None] (the band has none), or a
    NaN. *)
Definition no_mask (no_data : option float) : Prop :=
  no_data = None \/ exists x, no_data = Some x /\ is_nan x = true.

(** ** What a trace shows *)

Module trace.
Import gdal.

(** The values a trace shows for one kind of call. *)
Definition collect {X} (f : forall B, call B -> Py.result B -> list X)
  (t : list event) : list X :=
  t ≫= (fun ev => match ev with Ev c r => f _ c r end).

(** What a returned value contributes. *)
Definition returned {B} (r : Py.result B) : list B :=
  match r with
  | Py.Return b => [b]
  | Py.Raised _ => []
  end.

Definition some {B} (r : Py.result (option B)) : list B :=
  match r with
  | Py.Return (Some b) => [b]
  | _ => []
  end.

(** [Create] calls: path, sizes, band count and type. *)
Definition created : list event -> list (string * Z * Z * Z * GDALDataType) :=
  collect (fun B c _ =>
             match c with
             | Create _ p x y n ty => [(p, x, y, n, ty)]
             | _ => []
             end).

Definition xsizes_read : list event -> list Z :=
  collect (fun B c =>
             match c in call B return Py.result B -> list Z with
             | RasterXSize _ => returned
             | _ => fun _ => []
             end).

Definition ysizes_read : list event -> list Z :=
  collect (fun B c =>
             match c in call B return Py.result B -> list Z with
             | RasterYSize _ => returned
             | _ => fun _ => []
             end).

Definition geotransforms_read : list event -> list (list float) :=
  collect (fun B c =>
             match c in call B return Py.result B -> list (list float) with
             | GetGeoTransform _ => returned
             | _ => fun _ => []
             end).

Definition geotransforms_set : list event -> list (list float) :=
  collect (fun B c _ =>
             match c with
             | SetGeoTransform _ gt => [gt]
             | _ => []
             end).

Definition projections_read : list event -> list string :=
  collect (fun B c =>
             match c in call B return Py.result B -> list string with
             | GetProjection _ => returned
             | _ => fun _ => []
             end).

Definition projections_set : list event -> list string :=
  collect (fun B c _ =>
             match c with
             | SetProjection _ wkt => [wkt]
             | _ => []
             end).

Definition nodata_set : list event -> list (option float) :=
  collect (fun B c _ =>
             match c with
             | SetNoDataValue _ v => [v]
             | _ => []
             end).

(** The band numbers asked of [GetRasterBand]. *)
Definition band_numbers : list event -> list Z :=
  collect (fun B c _ =>
             match c with
             | GetRasterBand _ n => [n]
             | _ => []
             end).

(** Handles: the datasets [Open] and [Create] returned, and the bands
    [GetRasterBand] returned, each with its dataset. *)
Definition opened_ds : list event -> list Dataset :=
  collect (fun B c =>
             match c in call B return Py.result B -> list Dataset with
             | Open _ => some
             | _ => fun _ => []
             end).

Definition created_ds : list event -> list Dataset :=
  collect (fun B c =>
             match c in call B return Py.result B -> list Dataset with
             | Create _ _ _ _ _ _ => some
             | _ => fun _ => []
             end).

Definition bands_got : list event -> list (Dataset * Band) :=
  collect (fun B c =>
             match c in call B return Py.result B -> list (Dataset * Band) with
             | GetRasterBand ds _ => fun r => (fun b => (ds, b)) <$> some r
             | _ => fun _ => []
             end).

(** The datasets and bands a trace reads from, and those it changes. *)
Definition datasets_read : list event -> list Dataset :=
  collect (fun B c _ =>
             match c with
             | RasterXSize ds | RasterYSize ds | GetGeoTransform ds
             | GetProjection ds => [ds]
             | _ => []
             end).

Definition bands_read : list event -> list Band :=
  collect (fun B c _ =>
             match c with
             | GetNoDataValue b | ReadAsArray b => [b]
             | _ => []
             end).

Definition datasets_changed : list event -> list Dataset :=
  collect (fun B c _ =>
             match c with
             | SetGeoTransform ds _ | SetProjection ds _ | FlushCache ds => [ds]
             | _ => []
             end).

Definition bands_changed : list event -> list Band :=
  collect (fun B c _ =>
             match c with
             | SetNoDataValue b _ | WriteArray b _ => [b]
             | _ => []
             end).

End trace.

(** The nine conversions, called on an input and an output path. *)
Inductive conversion {L : Libm} (input_scene output_scene : string)
  : gdal.prog unit -> Prop :=
| conv_radiance_gainbias gain bias :
    conversion input_scene output_scene
      (radiance.gainbias input_scene gain bias output_scene)
| conv_radiance_scaling lmin lmax qcalmin qcalmax :
    conversion input_scene output_scene
      (radiance.scaling input_scene lmin lmax qcalmin qcalmax output_scene)
| conv_reflectance_gainbias gain bias sun_elev :
    conversion input_scene output_scene
      (reflectance.gainbias input_scene gain bias sun_elev output_scene)
| conv_reflectance_ref earth_sun_dist sun_elev esun :
    conversion input_scene output_scene
      (reflectance.ref input_scene earth_sun_dist sun_elev esun output_scene)
| conv_brightness_rad k1 k2 :
    conversion input_scene output_scene
      (brightness.toa_rad_to_toa_bright input_scene k1 k2 output_scene)
| conv_brightness_dn gain bias k1 k2 :
    conversion input_scene output_scene
      (brightness.dn_to_toa_bright input_scene gain bias k1 k2 output_scene)
| conv_toar_radiance gain bias :
    conversion input_scene output_scene
      (toar.toa_radiance input_scene gain bias output_scene)
| conv_toar_reflectance gain bias :
    conversion input_scene output_scene
      (toar.toa_reflectance input_scene gain bias output_scene)
| conv_toar_brightness k1 k2 :
    conversion input_scene output_scene
      (toar.toa_brightness input_scene k1 k2 output_scene).

(** The target is made like the source: whatever is created is the
    output path, with the sizes read from the source, one band of
    [Float32]; the geotransform, projection and nodata value set are the
    ones read; and a run that returns has set all of them. *)
Definition target_like_source (output_scene : string) (r : Py.result unit)
  (t : list gdal.event) : Prop :=
  (trace.created t = []
   \/ exists x y, trace.xsizes_read t = [x] /\ trace.ysizes_read t = [y]
                  /\ trace.created t
                     = [(output_scene, x, y, 1%Z, gdal.GDT_Float32)])
  /\ (trace.geotransforms_set t = []
      \/ exists gt, trace.geotransforms_read t = [gt]
                    /\ trace.geotransforms_set t = [gt])
  /\ (trace.projections_set t = []
      \/ exists wkt, trace.projections_read t = [wkt]
                     /\ trace.projections_set t = [wkt])
  /\ (trace.nodata_set t = []
      \/ exists v, gdal.nodata_read t = [v] /\ trace.nodata_set t = [v])
  /\ (r = Py.Return tt ->
      trace.created t <> [] /\ trace.geotransforms_set t <> []
      /\ trace.projections_set t <> [] /\ trace.nodata_set t <> []).

(** Reads go to what [Open] returned and changes to what [Create]
    returned, datasets and their bands alike. *)
Definition reads_source_changes_target (t : list gdal.event) : Prop :=
  Forall (fun ds => ds ∈ trace.opened_ds t) (trace.datasets_read t)
  /\ Forall (fun b => exists ds, ds ∈ trace.opened_ds t
                                 /\ (ds, b) ∈ trace.bands_got t)
       (trace.bands_read t)
  /\ Forall (fun ds => ds ∈ trace.created_ds t) (trace.datasets_changed t)
  /\ Forall (fun b => exists ds, ds ∈ trace.created_ds t
                                 /\ (ds, b) ∈ trace.bands_got t)
       (trace.bands_changed t).

(** ** The Julian date of the Meeus branch *)

Module meeus.
Import datetime.
Local Open Scope Z_scope.

(** January and February count as months 13 and 14 of the year before. *)
Definition shifted (d : datetime) : Z * Z :=
  if month d <=? 2 then (year d - 1, month d + 12) else (year d, month d).

(** The integers of the Julian date, in integer arithmetic: the days up
    to the date ([int(365.25 * (year + 4716)) + int(30.6001 * (month + 1))
    + day]), and the Gregorian correction [b]. *)
Definition days (d : datetime) : Z :=
  let '(Y, M) := shifted d in
  1461 * (Y + 4716) / 4 + 306001 * (M + 1) / 10000 + day d.

Definition gregorian (d : datetime) : Z :=
  let '(Y, _) := shifted d in
  2 - Y / 100 + Y / 100 / 4.

(** The Julian day number of the date: the Julian date at noon. *)
Definition day_number (d : datetime) : Z := days d + gregorian d - 1524.

(** The first day of a year, at midnight. *)
Definition new_year (y : Z) : datetime := {|
  year := y; month := 1; day := 1; hour := 0; minute := 0; second := 0
|}.

(** The Julian date as the branch adds it up, from the integers. *)
Definition julian_date (d : datetime) : float :=
  (let ut := Py.Z2F (hour d) + (Py.Z2F (minute d) / 60)
             + (Py.Z2F (second d) / 3600) in
   Py.Z2F (days d) + (ut / 24.0) + Py.Z2F (gregorian d) - 1524.5)%float.

(** The distance of the branch, from a Julian date. *)
Definition distance {L : Libm} (jd : float) : float :=
  (let d := jd - 2451545.0 in
   let g := np_radians (357.529 + 0.98560028 * d) in
   1.00014 - 0.01671 * np_cos g - 0.00014 * np_cos (2 * g))%float.

End meeus.

(** [P] on the [n] integers from [z] on. *)
Fixpoint range_all (P : Z -> bool) (n : nat) (z : Z) : bool :=
  match n with
  | O => true
  | S n => P z && range_all P n (z + 1)%Z
  end.

(** [int(x)] returns [n], decided with shifts in place of the powers of
    two of [Py.int]. *)
Definition trunc_is (x : float) (n : Z) : bool :=
  match Prim2SF x with
  | S754_zero _ => (n =? 0)%Z
  | S754_finite s m e =>
      let mag := if (0 <=? e)%Z then Z.shiftl (Z.pos m) e
                 else Z.shiftr (Z.pos m) (- e) in
      ((if s then (- mag)%Z else mag) =? n)%Z
  | _ => false
  end.

(** * Properties *)

(** ** The embedding on known values *)

Section Checks.
Local Open Scope float_scope.

Example int_truncates :
  Py.int 3.7 = Py.Return 3%Z /\ Py.int (-3.7) = Py.Return (-3)%Z
  /\ Py.int 0.5 = Py.Return 0%Z /\ Py.int 1e20 = Py.Return (10 ^ 20)%Z.
Proof. vm_compute. repeat split; reflexivity. Qed.

Example float_of_int :
  Py.Z2F 2451545 = 2451545.0 /\ Py.Z2F (-3) = -3.0
  /\ Py.Z2F 9007199254740993 = 9007199254740992.0.
Proof. vm_compute. repeat split; reflexivity. Qed.

Example truthy_zero_nan :
  Py.truthy 0 = false /\ Py.truthy neg_zero = false /\ Py.truthy nan = true.
Proof. vm_compute. repeat split; reflexivity. Qed.

(** 1 March is day 61 of a leap year and day 60 of a common year; 31
    December is day 366 of 2000 and day 365 of 1900. *)
Example tm_yday_leap :
  let date y m d :=
    {| datetime.year := y; datetime.month := m; datetime.day := d;
       datetime.hour := 0; datetime.minute := 0; datetime.second := 0 |} in
  (datetime.tm_yday (date 2020 3 1) = 61
   /\ datetime.tm_yday (date 2019 3 1) = 60
   /\ datetime.tm_yday (date 2000 12 31) = 366
   /\ datetime.tm_yday (date 1900 12 31) = 365)%Z.
Proof. vm_compute. repeat split; reflexivity. Qed.

(** At the epoch J2000 (1 January 2000, noon) the Julian day of the Meeus
    branch is 2451545.0, so [d = 0] and the mean anomaly is that of the
    epoch. *)
Example meeus_at_j2000 (L : Libm) :
  au.earth_sun_dist
    (py_datetime {| datetime.year := 2000; datetime.month := 1;
                    datetime.day := 1; datetime.hour := 12;
                    datetime.minute := 0; datetime.second := 0 |}) "Meeus"
  = Py.Return (1.00014 - 0.01671 * np_cos (np_radians 357.529)
               - 0.00014 * np_cos (2 * np_radians 357.529)).
Proof. reflexivity. Qed.

End Checks.

(** ** Binary64 facts, from the specification of the primitive floats *)

Section Binary64.
Local Open Scope float_scope.

(** A finite number is equal to itself. *)
Lemma SFeqb_finite_refl (s : bool) (m : positive) (e : Z) :
  SFeqb (S754_finite s m e) (S754_finite s m e) = true.
Proof.
  unfold SFeqb, SFcompare.
  rewrite Z.compare_refl, (Pos.compare_cont_refl m Eq).
  destruct s; reflexivity.
Qed.

(** [x == y] makes [y] equal to itself: [y] is not a NaN. *)
Lemma SFeqb_refl_r (x y : spec_float) :
  SFeqb x y = true -> SFeqb y y = true.
Proof.
  destruct y as [sy|sy| |sy my ey].
  - reflexivity.
  - destruct sy; reflexivity.
  - destruct x as [sx|sx| |sx mx ex]; intros H; discriminate H.
  - intros _. apply SFeqb_finite_refl.
Qed.

Lemma eqb_refl_r (x y : float) : (x =? y) = true -> (y =? y) = true.
Proof. rewrite !FloatAxioms.eqb_spec. apply SFeqb_refl_r. Qed.

Lemma Prim2SF_one : Prim2SF 1 = S754_finite false 4503599627370496 (-52).
Proof. vm_compute. reflexivity. Qed.

Lemma Prim2SF_zero : Prim2SF 0 = S754_zero false.
Proof. vm_compute. reflexivity. Qed.

Lemma Prim2SF_neg_zero : Prim2SF (-0) = S754_zero true.
Proof. vm_compute. reflexivity. Qed.

(** A valid mantissa and exponent are where rounding leaves them. *)
Lemma bounded_fexp (m : positive) (e : Z) :
  SpecFloat.bounded prec emax m e = true ->
  fexp prec emax (Z.pos (digits2_pos m) + e) = e /\ (e <= emax - prec)%Z.
Proof.
  unfold SpecFloat.bounded, canonical_mantissa. intros H.
  apply andb_prop in H. destruct H as [H1 H2].
  apply Z.eqb_eq in H1. apply Z.leb_le in H2. auto.
Qed.

(** The product by one is exact: rounding shifts the 52 zero bits that the
    mantissa of one brought in back out. *)
Lemma SFmul_one_l (x : spec_float) :
  valid_binary x = true ->
  SFmul prec emax (S754_finite false 4503599627370496 (-52)) x = x.
Proof.
  destruct x as [s|s| |s m e]; cbn [SFmul xorb SpecFloat.valid_binary]; auto.
  intros Hb. destruct (bounded_fexp m e Hb) as [Hf He].
  unfold binary_round_aux, shr_fexp.
  let t := eval cbv [Pos.mul] in (4503599627370496 * m)%positive in
  change (4503599627370496 * m)%positive with t.
  unfold Zdigits2 at 1. cbn [digits2_pos].
  set (d := digits2_pos m) in *.
  match goal with |- context [fexp prec emax (Z.pos ?p + ?q)] =>
    replace (Z.pos p + q)%Z with (Z.pos d + e)%Z
      by (rewrite !Pos2Z.inj_succ; lia)
  end.
  rewrite Hf. replace (e - (-52 + e))%Z with 52%Z by lia.
  cbn [shr shr_record_of_loc SpecFloat.iter_pos shr_1 orb shr_m
       loc_of_shr_record
round_nearest_even Zdigits2].
  fold d. replace (-52 + e + 52)%Z with e by lia. rewrite Hf, Z.sub_diag.
  cbn [shr shr_m]. apply Z.leb_le in He. rewrite He. reflexivity.
Qed.

Lemma mul_one_l (x : float) : 1 * x = x.
Proof.
  apply Prim2SF_inj. rewrite FloatAxioms.mul_spec, Prim2SF_one.
  apply SFmul_one_l, Prim2SF_valid.
Qed.

(** Adding zero changes one float only: [-0.0 + 0.0] is [+0.0]. *)
Lemma add_zero_r (x : float) : x <> (-0) -> x + 0 = x.
Proof.
  intros Hx. apply Prim2SF_inj. rewrite FloatAxioms.add_spec, Prim2SF_zero.
  destruct (Prim2SF x) as [s|s| |s m e] eqn:E; cbn; auto.
  destruct s; auto. exfalso. apply Hx. apply Prim2SF_inj.
  rewrite E, Prim2SF_neg_zero. reflexivity.
Qed.

Lemma gain1_bias0 (x : float) : x <> (-0) -> 1 * x + 0 = x.
Proof. intros Hx. rewrite mul_one_l. apply add_zero_r, Hx. Qed.

Lemma Prim2SF_infinity : Prim2SF infinity = S754_infinity false.
Proof. vm_compute. reflexivity. Qed.

Lemma is_finite_SF (x : float) :
  is_finite x = true -> SFfinite (Prim2SF x) = true.
Proof.
  unfold is_finite, is_nan, is_infinity.
  rewrite !FloatAxioms.eqb_spec, FloatAxioms.abs_spec, Prim2SF_infinity.
  destruct (Prim2SF x) as [s|s| |s m e]; try reflexivity.
  - destruct s; intros H; discriminate H.
  - intros H; discriminate H.
Qed.

Lemma is_nan_SF (x : float) : is_nan x = false -> Prim2SF x <> S754_nan.
Proof.
  unfold is_nan. rewrite FloatAxioms.eqb_spec. intros H E.
  rewrite E in H. discriminate H.
Qed.

(** Equal finite floats have a zero difference. *)
Lemma SFsub_eq_zero (x q : spec_float) :
  SFeqb x q = true -> SFfinite q = true ->
  SFzero (SFsub prec emax x q) = true.
Proof.
  unfold SFeqb, SFcompare.
  destruct x as [sx|sx| |sx mx ex], q as [sq|sq| |sq mq eq];
    try destruct sx; try destruct sq; cbn [SFfinite];
    intros H Hq; try discriminate H; try discriminate Hq; try reflexivity.
  - destruct (Z.compare_spec ex eq) as [He|He|He]; try discriminate H.
    change (Pos.compare_cont Eq mx mq) with (Pos.compare mx mq) in H.
    destruct (Pos.compare_spec mx mq) as [Hm|Hm|Hm]; try discriminate H.
    subst. cbn [SFsub cond_Zopp]. rewrite Z.sub_diag. reflexivity.
  - destruct (Z.compare_spec ex eq) as [He|He|He]; try discriminate H.
    change (Pos.compare_cont Eq mx mq) with (Pos.compare mx mq) in H.
    destruct (Pos.compare_spec mx mq) as [Hm|Hm|Hm]; try discriminate H.
    subst. cbn [SFsub cond_Zopp]. rewrite Z.sub_diag. reflexivity.
Qed.

(** A finite slope times a zero difference, plus [l], is [l]. *)
Lemma SF_slope_zero (k z l : spec_float) :
  SFfinite k = true -> SFzero z = true -> l <> S754_nan ->
  SFeqb (SFadd prec emax (SFmul prec emax k z) l) l = true.
Proof.
  destruct k as [sk|sk| |sk mk ek], z as [sz|sz| |sz mz ez];
    cbn [SFfinite SFzero SFmul]; intros Hk Hz Hl;
    try discriminate Hk; try discriminate Hz.
  all: destruct l as [sl|sl| |sl ml el]; try (exfalso; apply Hl; reflexivity).
  all: cbn [SFadd].
  all: try (destruct (xorb _ _), sl; reflexivity).
  all: try (destruct sl; reflexivity).
  all: apply SFeqb_finite_refl.
Qed.

(** The [qcalmin] end of the scaling formula, on one cell. *)
Lemma scaling_cell_qcalmin (lmin lmax qcalmin qcalmax src : float) :
  (src =? qcalmin) = true ->
  is_finite qcalmin = true ->
  is_finite ((lmax - lmin) / (qcalmax - qcalmin)) = true ->
  is_nan lmin = false ->
  (((lmax - lmin) / (qcalmax - qcalmin)) * (src - qcalmin) + lmin =? lmin)
  = true.
Proof.
  intros Heq Hq Hk Hl.
  rewrite FloatAxioms.eqb_spec in Heq.
  rewrite FloatAxioms.eqb_spec, FloatAxioms.add_spec, FloatAxioms.mul_spec,
    FloatAxioms.sub_spec.
  apply SF_slope_zero.
  - apply is_finite_SF, Hk.
  - apply SFsub_eq_zero; [exact Heq | apply is_finite_SF, Hq].
  - apply is_nan_SF, Hl.
Qed.

End Binary64.

(** ** Arrays: cells of an elementwise expression under the nodata mask *)

Section Arrays.
Local Open Scope float_scope.

Lemma map_map (f g : float -> float) (a : np.ndarray) :
  np.map g (np.map f a) = np.map (fun x => g (f x)) a.
Proof.
  unfold np.map. rewrite <- list_fmap_compose. apply list_fmap_ext.
  intros _ row _. cbn. rewrite <- list_fmap_compose. reflexivity.
Qed.

Lemma item_map (f : float -> float) (a : np.ndarray) (i j : nat) :
  np.item (np.map f a) i j = f <$> np.item a i j.
Proof.
  unfold np.item, np.map. rewrite list_lookup_fmap.
  destruct (a !! i) as [row|]; cbn; [|reflexivity].
  apply list_lookup_fmap.
Qed.

(** A cell of a masked expression: the nodata value where the source cell
    equals it, the expression of the source cell elsewhere. *)
Lemma item_masked (f : float -> float) (no_data : option float)
  (a : np.ndarray) (i j : nat) :
  np.item (masked f no_data a) i j =
  (fun s => if np.eq_cell s no_data then np.as_float no_data else f s)
    <$> np.item a i j.
Proof.
  unfold masked, np.item, np.setitem, np.map, np.eq.
  rewrite lookup_zip_with, !list_lookup_fmap.
  destruct (a !! i) as [row|]; cbn; [|reflexivity].
  rewrite lookup_zip_with, !list_lookup_fmap.
  destruct (row !! j) as [s|]; reflexivity.
Qed.

(** The output has the shape of the source. *)
Lemma masked_shape (f : float -> float) (no_data : option float)
  (a : np.ndarray) :
  length <$> masked f no_data a = length <$> a.
Proof.
  unfold masked, np.setitem, np.map, np.eq.
  induction a as [|row a IH]; cbn; [reflexivity|].
  f_equal; [|exact IH].
  rewrite length_zip_with, !length_fmap. lia.
Qed.

(** Two expressions that agree on the cells the mask leaves give the same
    array. *)
Lemma masked_ext (f g : float -> float) (no_data : option float)
  (a : np.ndarray) :
  Forall (Forall (fun s => np.eq_cell s no_data = false -> f s = g s)) a ->
  masked f no_data a = masked g no_data a.
Proof.
  unfold masked, np.setitem, np.map, np.eq.
  induction 1 as [|row a Hrow _ IH]; cbn; [reflexivity|].
  f_equal; [|exact IH].
  induction Hrow as [|s row Hs _ IHrow]; cbn; [reflexivity|].
  f_equal; [|exact IHrow].
  destruct (np.eq_cell s no_data); [reflexivity|]. apply Hs. reflexivity.
Qed.

End Arrays.

(** ** The transforms as masked expressions *)

Section Transforms.
Context {L : Libm}.
Local Open Scope float_scope.

Lemma radiance_gainbias_masked gain bias no_data src_ar :
  radiance.gainbias_ar gain bias no_data src_ar =
  masked (fun src => gain * src + bias) no_data src_ar.
Proof. reflexivity. Qed.

Lemma radiance_scaling_masked lmin lmax qcalmin qcalmax no_data src_ar :
  radiance.scaling_ar lmin lmax qcalmin qcalmax no_data src_ar =
  masked (fun src => ((lmax - lmin) / (qcalmax - qcalmin)) * (src - qcalmin)
                     + lmin) no_data src_ar.
Proof. reflexivity. Qed.

Lemma reflectance_gainbias_masked gain bias sun_elev no_data src_ar :
  reflectance.gainbias_ar gain bias sun_elev no_data src_ar =
  masked (fun src => (gain * src + bias) / np_sin (np_radians sun_elev))
    no_data src_ar.
Proof.
  unfold reflectance.gainbias_ar, masked. rewrite map_map. reflexivity.
Qed.

Lemma reflectance_ref_masked earth_sun_dist sun_elev esun no_data src_ar :
  reflectance.ref_ar earth_sun_dist sun_elev esun no_data src_ar =
  masked (ref_cell earth_sun_dist sun_elev esun) no_data src_ar.
Proof.
  unfold reflectance.ref_ar, masked, ref_cell, Py.truthy.
  destruct (sun_elev =? 0); cbn [negb]; [reflexivity|].
  rewrite map_map. reflexivity.
Qed.

Lemma brightness_rad_masked k1 k2 no_data src_ar :
  brightness.toa_rad_to_toa_bright_ar k1 k2 no_data src_ar =
  masked (fun src => k2 / np_log (k1 / src + 1)) no_data src_ar.
Proof. reflexivity. Qed.

Lemma brightness_dn_masked gain bias k1 k2 no_data src_ar :
  brightness.dn_to_toa_bright_ar gain bias k1 k2 no_data src_ar =
  masked (fun src => k2 / np_log (k1 / (gain * src + bias) + 1))
    no_data src_ar.
Proof.
  unfold brightness.dn_to_toa_bright_ar, masked. rewrite map_map.
  reflexivity.
Qed.

End Transforms.

(** ** The band transforms and the distance *)

Section Conversions.
Context {L : Libm}.
Local Open Scope float_scope.

(** A source cell equal to the nodata value comes out as the nodata
    value, whatever the expression. *)
Lemma masked_nodata f (n : float) src_ar i j s :
  np.item src_ar i j = Some s -> (s =? n) = true ->
  np.item (masked f (Some n) src_ar) i j = Some n
  /\ np.item_eq (masked f (Some n) src_ar) i j n = true.
Proof.
  intros Hs Hn.
  assert (H : np.item (masked f (Some n) src_ar) i j = Some n).
  { rewrite item_masked, Hs. cbn. rewrite Hn. reflexivity. }
  split; [exact H|].
  unfold np.item_eq. rewrite H. exact (eqb_refl_r _ _ Hn).
Qed.

(** A source cell different from the nodata value comes out as the
    expression of that cell. *)
Lemma masked_data f no_data src_ar i j s :
  np.item src_ar i j = Some s -> np.eq_cell s no_data = false ->
  np.item (masked f no_data src_ar) i j = Some (f s).
Proof.
  intros Hs Hn. rewrite item_masked, Hs. cbn. rewrite Hn. reflexivity.
Qed.

(** C1.  In each of the six band transforms, every cell whose source
    value equals the nodata value (IEEE equality) holds the nodata value in
    the output, and compares equal to it.  In [dn_to_toa_bright] the mask
    is the source's: a cell whose source value differs from the nodata
    value holds the brightness of its radiance, also when that radiance
    equals the nodata value. *)
Theorem nodata_cells_preserved (n : float) (src_ar : np.ndarray) :
  (forall i j s,
      np.item src_ar i j = Some s -> (s =? n) = true ->
      let is_nodata (trg_ar : np.ndarray) :=
        np.item trg_ar i j = Some n /\ np.item_eq trg_ar i j n = true in
      (forall gain bias,
          is_nodata (radiance.gainbias_ar gain bias (Some n) src_ar)) /\
      (forall lmin lmax qcalmin qcalmax,
          is_nodata
            (radiance.scaling_ar lmin lmax qcalmin qcalmax (Some n) src_ar)) /\
      (forall gain bias sun_elev,
          is_nodata
            (reflectance.gainbias_ar gain bias sun_elev (Some n) src_ar)) /\
      (forall earth_sun_dist sun_elev esun,
          is_nodata
            (reflectance.ref_ar earth_sun_dist sun_elev esun (Some n)
               src_ar)) /\
      (forall k1 k2,
          is_nodata
            (brightness.toa_rad_to_toa_bright_ar k1 k2 (Some n) src_ar)) /\
      (forall gain bias k1 k2,
          is_nodata
            (brightness.dn_to_toa_bright_ar gain bias k1 k2 (Some n) src_ar)))
  /\
  (forall i j s gain bias k1 k2,
      np.item src_ar i j = Some s -> (s =? n) = false ->
      np.item (brightness.dn_to_toa_bright_ar gain bias k1 k2 (Some n) src_ar)
        i j
      = Some (k2 / np_log (k1 / (gain * s + bias) + 1))).
Proof.
  split.
  - intros i j s Hs Hn is_nodata. subst is_nodata. cbv beta.
    repeat split; intros.
    all: first
      [ rewrite radiance_gainbias_masked
      | rewrite radiance_scaling_masked
      | rewrite reflectance_gainbias_masked
      | rewrite reflectance_ref_masked
      | rewrite brightness_rad_masked
      | rewrite brightness_dn_masked ].
    all: eapply masked_nodata; eassumption.
  - intros i j s gain bias k1 k2 Hs Hn.
    rewrite brightness_dn_masked.
    rewrite (masked_data _ (Some n) src_ar i j s Hs Hn). reflexivity.
Qed.

(** C2.  At every cell that is not nodata, [ref] yields
    [(pi * source * earth_sun_dist ** 2 / esun) * cos(radians(90 - sun_elev))],
    divided by [sin(radians(sun_elev))] exactly when [sun_elev] is not
    zero; at [sun_elev == 0] nothing divides. *)
Theorem ref_physical_formula (earth_sun_dist sun_elev esun : float)
  (no_data : option float) (src_ar : np.ndarray) (i j : nat) (s : float) :
  np.item src_ar i j = Some s -> np.eq_cell s no_data = false ->
  let solar_zenith := 90 - sun_elev in
  let base := (np.pi * s * py_pow earth_sun_dist 2 / esun)
              * np_cos (np_radians solar_zenith) in
  np.item (reflectance.ref_ar earth_sun_dist sun_elev esun no_data src_ar) i j
  = Some (if sun_elev =? 0 then base
          else base / np_sin (np_radians sun_elev)).
Proof.
  intros Hs Hn solar_zenith base.
  rewrite reflectance_ref_masked.
  rewrite (masked_data _ no_data src_ar i j s Hs Hn).
  reflexivity.
Qed.

(** For any library that follows Annex F, the two brightness conversions
    part at a source cell of negative zero: with gain 1 and bias 0 the
    radiance is [-0.0 + 0 = +0.0], so one divides by [+0.0] and the other
    by [-0.0]. *)
Lemma brightness_at_neg_zero :
  AnnexF L ->
  brightness.dn_to_toa_bright_ar 1 0 1 1 (Some (-9999)) [[neg_zero]] = [[0]]
  /\ brightness.toa_rad_to_toa_bright_ar 1 1 (Some (-9999)) [[neg_zero]]
     = [[nan]].
Proof.
  intros [Hp Hn]. unfold infinity, neg_infinity, nan in Hp, Hn. split.
  - unfold brightness.dn_to_toa_bright_ar. cbn. rewrite Hp. reflexivity.
  - unfold brightness.toa_rad_to_toa_bright_ar. cbn. rewrite Hn.
    reflexivity.
Qed.

(** C3, negative zero set apart.  With gain 1 and bias 0, [dn_to_toa_bright] and
    [toa_rad_to_toa_bright] produce the same array, nodata cells included,
    for every source array none of whose unmasked cells is negative
    zero. *)
Theorem brightness_dn_unit_gain (k1 k2 : float) (no_data : option float)
  (src_ar : np.ndarray) :
  Forall (Forall (fun s => s <> neg_zero \/ np.eq_cell s no_data = true))
    src_ar ->
  brightness.dn_to_toa_bright_ar 1 0 k1 k2 no_data src_ar
  = brightness.toa_rad_to_toa_bright_ar k1 k2 no_data src_ar.
Proof.
  intros H. rewrite brightness_dn_masked, brightness_rad_masked.
  apply masked_ext.
  eapply Forall_impl; [exact H|]. intros row Hrow.
  eapply Forall_impl; [exact Hrow|]. intros s Hs Hn.
  destruct Hs as [Hs|Hs]; [|congruence].
  rewrite (gain1_bias0 s Hs). reflexivity.
Qed.

(** C4.  [radiance.gainbias] yields [gain * source + bias] at every cell
    that is not nodata, and on the band [[10, 20], [-1, 30]] with nodata
    [-1], gain [0.1] and bias [5] it yields [[6.0, 7.0], [-1, 8.0]]. *)
Theorem radiance_gainbias_linear :
  (forall gain bias no_data src_ar i j s,
      np.item src_ar i j = Some s -> np.eq_cell s no_data = false ->
      np.item (radiance.gainbias_ar gain bias no_data src_ar) i j
      = Some (gain * s + bias))
  /\ radiance.gainbias_ar 0.1 5 (Some (-1)) [[10; 20]; [-1; 30]]
     = [[6.0; 7.0]; [-1; 8.0]].
Proof.
  split.
  - intros gain bias no_data src_ar i j s Hs Hn.
    rewrite radiance_gainbias_masked.
    rewrite (masked_data _ no_data src_ar i j s Hs Hn). reflexivity.
  - vm_compute. reflexivity.
Qed.

(** The days before a month and the days of that month stay within a
    year. *)
Lemma days_before_month_range (y m : Z) :
  (1 <= m <= 12)%Z ->
  (0 <= datetime.days_before_month y m
   /\ datetime.days_before_month y m + datetime.days_in_month y m <= 366)%Z.
Proof.
  intros Hm.
  assert (Hcases : (m = 1 \/ m = 2 \/ m = 3 \/ m = 4 \/ m = 5 \/ m = 6
                    \/ m = 7 \/ m = 8 \/ m = 9 \/ m = 10 \/ m = 11
                    \/ m = 12)%Z) by lia.
  unfold datetime.days_before_month, datetime.days_in_month.
  destruct (datetime.is_leap y);
    repeat (destruct Hcases as [->|Hcases]; [vm_compute; split; discriminate|]);
    subst m; vm_compute; split; discriminate.
Qed.

(** C8.  With the Mather formula the distance is
    [1 / (1 - 0.016729 * cos(0.9856 * (doy - 4)))], [doy] the day of the
    year of the date (1 to 366 for a valid date); the cosine takes the
    product as it is: [np.radians] is not consulted, so two libraries
    with the same cosine give the same distance. *)
Theorem mather_formula (d : datetime.datetime) :
  au.earth_sun_dist (py_datetime d) "Mather"
  = Py.Return
      (1 / (1 - 0.016729 * np_cos (0.9856 * Py.Z2F (datetime.tm_yday d - 4))))
  /\ (forall L' : Libm,
         @np_cos L' = @np_cos L ->
         @au.earth_sun_dist L' (py_datetime d) "Mather"
         = @au.earth_sun_dist L (py_datetime d) "Mather")
  /\ (datetime.valid d -> (1 <= datetime.tm_yday d <= 366)%Z).
Proof.
  split; [reflexivity|]. split.
  - intros L' H. cbn. rewrite H. reflexivity.
  - unfold datetime.valid, datetime.tm_yday.
    intros (_ & Hm & Hd & _).
    pose proof (days_before_month_range (datetime.year d) (datetime.month d)
                  Hm) as [H0 H1].
    lia.
Qed.

(** Every name of the list is in its [repr]. *)
Lemma formulas_in_repr :
  Forall (fun name => Py.contains au.formulas_repr name = true) au.formulas.
Proof. repeat constructor. Qed.

(** C9.  A date that is not a [datetime.datetime] raises [TypeError],
    whatever the formula; on a [datetime.datetime], a formula string
    outside the five names raises [ValueError] with a message that
    contains each of the five names.  Neither returns a value. *)
Theorem earth_sun_dist_errors :
  (forall (date : object) (formula : string),
      (forall d, date <> py_datetime d) ->
      au.earth_sun_dist date formula
      = Py.Raised
          (Py.TypeError "Date must be of type <class 'datetime.datetime'>!"))
  /\
  (forall (d : datetime.datetime) (formula : string),
      formula ∉ au.formulas ->
      exists msg,
        au.earth_sun_dist (py_datetime d) formula
        = Py.Raised (Py.ValueError msg)
        /\ Forall (fun name => Py.contains msg name = true) au.formulas).
Proof.
  split.
  - intros date formula Hd.
    destruct date as [d| | | | |]; try reflexivity.
    exfalso. exact (Hd d eq_refl).
  - intros d formula Hf.
    exists (Py.concat "Formula must be one of "
              (Py.concat au.formulas_repr "!")).
    split.
    + unfold au.earth_sun_dist, au.formulas in *.
      repeat match goal with
             | |- context [String.eqb formula ?s] =>
                 destruct (String.eqb_spec formula s) as [->|_];
                 [exfalso; apply Hf; set_solver|]
             end.
      reflexivity.
    + repeat constructor.
Qed.

(** The [qcalmin] end of [scaling] in binary64: a cell equal to [qcalmin]
    that is not nodata comes out equal to [lmin], when [qcalmin] and the
    slope are finite and [lmin] is a number. *)
Lemma scaling_qcalmin_binary64 lmin lmax qcalmin qcalmax no_data src_ar i j s :
  np.item src_ar i j = Some s -> np.eq_cell s no_data = false ->
  (s =? qcalmin) = true ->
  is_finite qcalmin = true ->
  is_finite ((lmax - lmin) / (qcalmax - qcalmin)) = true ->
  is_nan lmin = false ->
  np.item_eq (radiance.scaling_ar lmin lmax qcalmin qcalmax no_data src_ar)
    i j lmin = true.
Proof.
  intros Hs Hn Heq Hq Hk Hl.
  unfold np.item_eq. rewrite radiance_scaling_masked.
  rewrite (masked_data _ no_data src_ar i j s Hs Hn).
  apply scaling_cell_qcalmin; assumption.
Qed.

(** A program that starts with the existence check of its output stops
    there when the output exists: the check is its only call. *)
Lemma exec_output_exists (S : gdal.system) (w : gdal.world)
  (output_scene : string) (e : Py.exn) (k : gdal.prog unit) :
  gdal.path_exists w output_scene = true ->
  gdal.exec S
    (output_exists ← gdal.do (gdal.os_path_exists output_scene);
     if (output_exists : bool) then gdal.Throw e else k) w
  = (Py.Raised e, w,
     [gdal.Ev (gdal.os_path_exists output_scene) (Py.Return true)]).
Proof.
  intros H. cbn. rewrite gdal.handle_exists, H. reflexivity.
Qed.

(** C6.  When the output path exists, each of the nine conversions
    raises [ValueError] ("... already exists!") after one call, the
    existence check: it opens and reads no source, creates nothing, and
    leaves the world, the existing file included, as it was. *)
Theorem existing_output_refused (S : gdal.system) (w : gdal.world)
  (output_scene : string) (f : gdal.file) :
  gdal.files w !! output_scene = Some f ->
  let refused (p : gdal.prog unit) :=
    gdal.exec S p w
    = (Py.Raised (Py.ValueError (Py.concat output_scene " already exists!")),
       w, [gdal.Ev (gdal.os_path_exists output_scene) (Py.Return true)]) in
  (forall input_scene gain bias,
      refused (radiance.gainbias input_scene gain bias output_scene)) /\
  (forall input_scene lmin lmax qcalmin qcalmax,
      refused (radiance.scaling input_scene lmin lmax qcalmin qcalmax
                 output_scene)) /\
  (forall input_scene gain bias sun_elev,
      refused (reflectance.gainbias input_scene gain bias sun_elev
                 output_scene)) /\
  (forall input_scene earth_sun_dist sun_elev esun,
      refused (reflectance.ref input_scene earth_sun_dist sun_elev esun
                 output_scene)) /\
  (forall input_scene k1 k2,
      refused (brightness.toa_rad_to_toa_bright input_scene k1 k2
                 output_scene)) /\
  (forall input_scene gain bias k1 k2,
      refused (brightness.dn_to_toa_bright input_scene gain bias k1 k2
                 output_scene)) /\
  (forall input_scene gain bias,
      refused (toar.toa_radiance input_scene gain bias output_scene)) /\
  (forall input_scene gain bias,
      refused (toar.toa_reflectance input_scene gain bias output_scene)) /\
  (forall input_scene k1 k2,
      refused (toar.toa_brightness input_scene k1 k2 output_scene)).
Proof.
  intros Hf refused. subst refused. cbv beta.
  assert (He : gdal.path_exists w output_scene = true).
  { unfold gdal.path_exists. apply bool_decide_eq_true_2. eexists; exact Hf. }
  repeat split; intros; apply exec_output_exists; exact He.
Qed.

(** C10.  [toar.toa_reflectance] is [toar.toa_radiance], and is
    [radiance.gainbias]: the same program and the same array, nodata mask
    included; a cell that is not nodata holds [gain * source + bias], with
    no division by the sine of a sun elevation (the function takes
    none). *)
Theorem toa_reflectance_is_gainbias :
  toar.toa_reflectance = toar.toa_radiance
  /\ toar.toa_reflectance = radiance.gainbias
  /\ (forall gain bias no_data src_ar,
         toar.toa_reflectance_ar gain bias no_data src_ar
         = toar.toa_radiance_ar gain bias no_data src_ar
         /\ toar.toa_reflectance_ar gain bias no_data src_ar
            = radiance.gainbias_ar gain bias no_data src_ar)
  /\ (forall gain bias no_data src_ar i j s,
         np.item src_ar i j = Some s -> np.eq_cell s no_data = false ->
         np.item (toar.toa_reflectance_ar gain bias no_data src_ar) i j
         = Some (gain * s + bias)).
Proof.
  split; [reflexivity|]. split; [reflexivity|]. split.
  - intros. split; reflexivity.
  - intros gain bias no_data src_ar i j s Hs Hn.
    change (toar.toa_reflectance_ar gain bias no_data src_ar)
      with (masked (fun src => gain * src + bias) no_data src_ar).
    rewrite (masked_data _ no_data src_ar i j s Hs Hn). reflexivity.
Qed.

End Conversions.

(** ** Programs and the arrays they write *)

Section Programs.
Context {L : Libm}.

Lemma all_runs_exec {A} (p : gdal.prog A) :
  forall Q, all_runs p Q ->
  forall S w, Q (gdal.exec S p w).1.1 (gdal.exec S p w).2.
Proof.
  induction p as [a|e|B c k IH]; intros Q H S w; cbn in *; try exact H.
  destruct H as [He Hb].
  destruct (gdal.handle S B c w) as [[b|e] w']; cbn.
  - specialize (IH b _ (Hb b) S w').
    destruct (gdal.exec S (k b) w') as [[r w''] t]. exact IH.
  - apply He.
Qed.

(** Symbolic execution: every answer of every call, and every handle that
    may be [None]. *)
Ltac runs :=
  repeat first
    [ progress cbn [all_runs gdal.bind mbind gdal.prog_bind gdal.meth gdal.do]
    | match goal with
      | |- _ /\ _ => split
      | |- forall _, _ => intro
      | |- all_runs ?p _ =>
          match p with
          | context [gdal.meth ?o _ _] => is_var o; destruct o
          | context [if ?b then _ else _] => is_var b; destruct b
          end
      end ].

Ltac writes_or_raises :=
  unfold writes; cbn;
  first [ right; split; [reflexivity | eexists; reflexivity]
        | left; eexists _, _; repeat split; reflexivity ].

(** What each conversion writes is its array transform of the nodata
    value and the array it read, on every system; a run that returns has
    written it. *)
Theorem conversions_write_their_transform (S : gdal.system) (w : gdal.world)
  (input_scene output_scene : string) :
  let run (p : gdal.prog unit) f :=
    writes f (gdal.exec S p w).1.1 (gdal.exec S p w).2 in
  (forall gain bias,
      run (radiance.gainbias input_scene gain bias output_scene)
        (radiance.gainbias_ar gain bias)) /\
  (forall lmin lmax qcalmin qcalmax,
      run (radiance.scaling input_scene lmin lmax qcalmin qcalmax output_scene)
        (radiance.scaling_ar lmin lmax qcalmin qcalmax)) /\
  (forall gain bias sun_elev,
      run (reflectance.gainbias input_scene gain bias sun_elev output_scene)
        (reflectance.gainbias_ar gain bias sun_elev)) /\
  (forall earth_sun_dist sun_elev esun,
      run (reflectance.ref input_scene earth_sun_dist sun_elev esun
             output_scene)
        (reflectance.ref_ar earth_sun_dist sun_elev esun)) /\
  (forall k1 k2,
      run (brightness.toa_rad_to_toa_bright input_scene k1 k2 output_scene)
        (brightness.toa_rad_to_toa_bright_ar k1 k2)) /\
  (forall gain bias k1 k2,
      run (brightness.dn_to_toa_bright input_scene gain bias k1 k2
             output_scene)
        (brightness.dn_to_toa_bright_ar gain bias k1 k2)) /\
  (forall gain bias,
      run (toar.toa_radiance input_scene gain bias output_scene)
        (toar.toa_radiance_ar gain bias)) /\
  (forall gain bias,
      run (toar.toa_reflectance input_scene gain bias output_scene)
        (toar.toa_reflectance_ar gain bias)) /\
  (forall k1 k2,
      run (toar.toa_brightness input_scene k1 k2 output_scene)
        (toar.toa_brightness_ar k1 k2)).
Proof.
  intros run. subst run. cbv beta.
  repeat split; intros; apply all_runs_exec.
  - unfold radiance.gainbias. runs. all: writes_or_raises.
  - unfold radiance.scaling. runs. all: writes_or_raises.
  - unfold reflectance.gainbias. runs. all: writes_or_raises.
  - unfold reflectance.ref. runs. all: writes_or_raises.
  - unfold brightness.toa_rad_to_toa_bright. runs. all: writes_or_raises.
  - unfold brightness.dn_to_toa_bright. runs. all: writes_or_raises.
  - unfold toar.toa_radiance. runs. all: writes_or_raises.
  - unfold toar.toa_reflectance. runs. all: writes_or_raises.
  - unfold toar.toa_brightness. runs. all: writes_or_raises.
Qed.

End Programs.

(** ** Magnitudes, in exact arithmetic *)

Section ExactArithmetic.
Import Reals Lra.
Local Open Scope R_scope.

Lemma inv_between (D lo hi : R) :
  0 < D -> lo * D <= 1 -> 1 <= hi * D -> lo <= 1 / D <= hi.
Proof.
  intros HD Hlo Hhi. split.
  - apply Rmult_le_reg_r with D; [exact HD|].
    unfold Rdiv. rewrite Rmult_assoc, Rinv_l; lra.
  - apply Rmult_le_reg_r with D; [exact HD|].
    unfold Rdiv. rewrite Rmult_assoc, Rinv_l; lra.
Qed.

(** Both ends of the scaling formula are exact over the reals. *)
Lemma scaling_endpoints_exact (lmin lmax qcalmin qcalmax : R) :
  qcalmax <> qcalmin ->
  ideal.scaling_cell lmin lmax qcalmin qcalmax qcalmin = lmin
  /\ ideal.scaling_cell lmin lmax qcalmin qcalmax qcalmax = lmax.
Proof.
  intros H. unfold ideal.scaling_cell. split; field; lra.
Qed.

(** The four other formulas stay within the physical range of the
    distance, on every date. *)
Lemma siblings_in_range (d : datetime.datetime) (formula : string) (v : R) :
  formula ∈ ["Meeus"; "Spencer"; "Mather"; "ESA"] ->
  ideal.earth_sun_dist d formula = Some v ->
  0.98 <= v <= 1.02.
Proof.
  intros Hf. unfold ideal.earth_sun_dist.
  assert (Hcases : formula = "Meeus" \/ formula = "Spencer"
                   \/ formula = "Mather" \/ formula = "ESA")
    by (rewrite !elem_of_cons, elem_of_nil in Hf; tauto).
  destruct Hcases as [ -> | [ -> | [ -> | -> ] ] ];
    cbn [String.eqb Ascii.eqb Bool.eqb].
  - destruct (datetime.month d <=? 2)%Z; intros Hv; injection Hv as <-.
    all: match goal with |- context [cos (2 * ?g)] =>
           pose proof (COS_bound g); pose proof (COS_bound (2 * g)) end.
    all: lra.
  - intros Hv; injection Hv as <-.
    set (p := 2 * PI * IZR (datetime.tm_yday d - 1) / 365).
    pose proof (COS_bound p). pose proof (SIN_bound p).
    pose proof (COS_bound (2 * p)). pose proof (SIN_bound (2 * p)).
    set (S := 1.000110 + 0.034221 * cos p + 0.001280 * sin p
              + 0.000719 * cos (2 * p) + 0.000077 * sin (2 * p)) in *.
    assert (HS : 0.963 <= S <= 1.037) by (subst S; lra).
    assert (HV : 0.98 * 0.98 <= 1 / S <= 1.02 * 1.02)
      by (apply inv_between; lra).
    replace 0.5 with (/ 2) by lra.
    rewrite Rpower_sqrt by lra.
    split.
    + rewrite <- (sqrt_square 0.98) by lra. apply sqrt_le_1; lra.
    + rewrite <- (sqrt_square 1.02) by lra. apply sqrt_le_1; lra.
  - intros Hv; injection Hv as <-.
    pose proof (COS_bound (0.9856 * IZR (datetime.tm_yday d - 4))).
    apply inv_between; lra.
  - intros Hv; injection Hv as <-.
    pose proof (COS_bound (2 * PI * (0.9856 * IZR (datetime.tm_yday d - 4)
                                     / 360))).
    lra.
Qed.

(** The cosine near zero: [1 - a^2 / 2 <= cos a]. *)
Lemma cos_lower (a : R) : 0 <= a <= 2 -> 1 - a * a / 2 <= cos a.
Proof.
  intros [H0 H2].
  assert (Hm : -2 <= a) by lra.
  destruct (pre_cos_bound a 0 Hm H2) as [H _].
  replace (1 - a * a / 2) with (cos_approx a (2 * 0 + 1)); [exact H|].
  unfold cos_approx, cos_term. cbn. field.
Qed.

(** The Duffie expression ranges over [0.967, 1.033]: it is the
    irradiance correction, the inverse square of the distance. *)
Lemma duffie_range (d : datetime.datetime) (v : R) :
  ideal.earth_sun_dist d "Duffie" = Some v -> 0.967 <= v <= 1.033.
Proof.
  unfold ideal.earth_sun_dist. cbn [String.eqb Ascii.eqb Bool.eqb].
  intros Hv; injection Hv as <-.
  pose proof (COS_bound (IZR (datetime.tm_yday d * 2) * PI / 365)). lra.
Qed.

(** C5, by arithmetic.  In binary64, a cell equal to [qcalmin] that is not
    nodata comes out equal to [lmin] when [qcalmin] and the slope
    [(lmax - lmin) / (qcalmax - qcalmin)] are finite and [lmin] is not a
    NaN.  Over the reals, with [qcalmax <> qcalmin], the formula maps
    [qcalmin] to [lmin] and [qcalmax] to [lmax]. *)
Theorem scaling_endpoints :
  (forall (lmin lmax qcalmin qcalmax : float) no_data src_ar i j s,
      np.item src_ar i j = Some s -> np.eq_cell s no_data = false ->
      (s =? qcalmin)%float = true ->
      is_finite qcalmin = true ->
      is_finite ((lmax - lmin) / (qcalmax - qcalmin))%float = true ->
      is_nan lmin = false ->
      np.item_eq
        (radiance.scaling_ar lmin lmax qcalmin qcalmax no_data src_ar) i j lmin
      = true)
  /\
  (forall lmin lmax qcalmin qcalmax : R,
      qcalmax <> qcalmin ->
      ideal.scaling_cell lmin lmax qcalmin qcalmax qcalmin = lmin
      /\ ideal.scaling_cell lmin lmax qcalmin qcalmax qcalmax = lmax).
Proof.
  split.
  - intros. eapply scaling_qcalmin_binary64; eassumption.
  - apply scaling_endpoints_exact.
Qed.

(** C7.  On 1 January 2020 the Duffie formula returns
    [1 + 0.033 * cos(2 * pi / 365)], which in exact arithmetic is above
    1.02 astronomical units. *)
Theorem duffie_new_year_above_range :
  (forall L : Libm,
      au.earth_sun_dist (py_datetime scenario.new_year) "Duffie"
      = Py.Return (1 + 0.033 * np_cos (2 * np.pi / 365))%float)
  /\
  (exists v : R,
      ideal.earth_sun_dist scenario.new_year "Duffie" = Some v /\ 1.02 < v).
Proof.
  split; [reflexivity|].
  eexists. split; [reflexivity|].
  change (datetime.tm_yday scenario.new_year * 2)%Z with 2%Z.
  pose proof PI_RGT_0 as Hpi. pose proof PI_4 as Hpi4.
  set (a := 2 * PI / 365).
  assert (Ha : 0 <= a <= 8 / 365) by (subst a; lra).
  assert (Hc : 1 - a * a / 2 <= cos a) by (apply cos_lower; lra).
  assert (Hsq : a * a <= (8 / 365) * (8 / 365))
    by (apply Rmult_le_compat; lra).
  lra.
Qed.

End ExactArithmetic.

(** ** Where binary64 parts from exact arithmetic *)

Section Inexact.
Local Open Scope float_scope.

Lemma libm_poly_AnnexF : AnnexF libm_poly.
Proof. split; reflexivity. Qed.

(** C3 does not hold of every array: with any library that follows
    Annex F, on the one-cell array [[-0.0]] with [k1 = k2 = 1] and nodata
    -9999,
    [dn_to_toa_bright] with gain 1 and bias 0 yields [0.0] and
    [toa_rad_to_toa_bright] yields a NaN. *)
Lemma brightness_unit_gain_differs :
  ~ (forall L : Libm, AnnexF L ->
     forall (k1 k2 : float) (no_data : option float) (src_ar : np.ndarray),
       brightness.dn_to_toa_bright_ar 1 0 k1 k2 no_data src_ar
       = brightness.toa_rad_to_toa_bright_ar k1 k2 no_data src_ar).
Proof.
  intros H.
  specialize (H libm_poly libm_poly_AnnexF 1 1 (Some (-9999)) [[neg_zero]]).
  destruct (brightness_at_neg_zero (L := libm_poly) libm_poly_AnnexF)
    as [Hdn Hrad].
  rewrite Hdn, Hrad in H.
  assert (Hnan : is_nan 0 = is_nan nan) by congruence.
  discriminate Hnan.
Qed.

(** C5 does not hold at the [qcalmax] end in binary64: with [lmin = 3.2],
    [lmax = 12.65], [qcalmin = 1], [qcalmax = 255] (Landsat 7, band 6,
    high gain) the cell 255 comes out as 12.649999999999999, which is not
    [lmax]. *)
Lemma scaling_qcalmax_not_exact :
  ~ (forall (lmin lmax qcalmin qcalmax : float) (no_data : option float)
            (src_ar : np.ndarray) (i j : nat) (s : float),
        (qcalmax =? qcalmin) = false ->
        np.item src_ar i j = Some s -> np.eq_cell s no_data = false ->
        (s =? qcalmax) = true ->
        np.item_eq
          (radiance.scaling_ar lmin lmax qcalmin qcalmax no_data src_ar)
          i j lmax = true).
Proof.
  intros H.
  specialize (H 3.2 12.65 1 255 (Some 0) [[255]] 0%nat 0%nat 255
                eq_refl eq_refl eq_refl eq_refl).
  vm_compute in H. discriminate H.
Qed.

End Inexact.

(** ** The scenario *)

Section Scenario.
Local Open Scope float_scope.

(** The scenario, end to end, on the GDAL in memory: the output file holds
    [[6.0, 7.0], [-1, 8.0]] as [Float32], with the source's nodata value,
    geotransform and projection. *)
Example gainbias_end_to_end :
  let '(r, w, _) :=
    gdal.exec memgdal.sys (radiance.gainbias "in.tif" 0.1 5 "out.tif")
      scenario.world0 in
  r = Py.Return tt
  /\ gdal.files w !! "out.tif"
     = Some (gdal.RasterFile {|
         gdal.xsize := 2;
         gdal.ysize := 2;
         gdal.dtype := gdal.GDT_Float32;
         gdal.geotransform := [399960; 30; 0; 4500000; 0; -30];
         gdal.projection := "EPSG:32633";
         gdal.nodata := Some (-1);
         gdal.band1 := [[6.0; 7.0]; [-1; 8.0]]
       |})
  /\ gdal.files w !! "in.tif" = Some (gdal.RasterFile scenario.source).
Proof. vm_compute. repeat split; reflexivity. Qed.

Lemma nodata_cells_preserved_witness :
  np.item scenario.src_ar 1 0 = Some (-1)
  /\ (-1 =? -1) = true
  /\ np.item (brightness.dn_to_toa_bright_ar (L := libm_poly) 0.1 5 607.76
                1260.56 (Some (-1)) scenario.src_ar) 1 0 = Some (-1)
  /\ np.item (brightness.dn_to_toa_bright_ar (L := libm_poly) 1 (-21) 607.76
                1260.56 (Some (-1)) scenario.src_ar) 0 1
     = Some (1260.56 / poly_log (607.76 / (1 * 20 + -21) + 1)).
Proof.
  split; [reflexivity|]. split; [reflexivity|]. split.
  - apply (proj1 (nodata_cells_preserved (L := libm_poly) (-1)
                    scenario.src_ar) 1%nat 0%nat (-1) eq_refl eq_refl).
  - apply (proj2 (nodata_cells_preserved (L := libm_poly) (-1)
                    scenario.src_ar) 0%nat 1%nat 20 1 (-21) 607.76 1260.56
             eq_refl eq_refl).
Defined.

Lemma ref_physical_formula_witness :
  np.item scenario.src_ar 0 1 = Some 20
  /\ np.eq_cell 20 (Some (-1)) = false
  /\ np.item (reflectance.ref_ar (L := libm_poly) 0.9833 0 1536 (Some (-1))
                scenario.src_ar) 0 1
     = Some (np.pi * 20 * poly_pow 0.9833 2 / 1536
             * poly_cos (90 * (np.pi / 180))).
Proof.
  split; [reflexivity|]. split; [reflexivity|].
  apply (ref_physical_formula (L := libm_poly) 0.9833 0 1536 (Some (-1))
           scenario.src_ar 0 1 20 eq_refl eq_refl).
Defined.

Lemma brightness_dn_unit_gain_witness :
  brightness.dn_to_toa_bright_ar (L := libm_poly) 1 0 607.76 1260.56
    (Some (-1)) scenario.src_ar
  = brightness.toa_rad_to_toa_bright_ar (L := libm_poly) 607.76 1260.56
      (Some (-1)) scenario.src_ar.
Proof.
  apply (brightness_dn_unit_gain (L := libm_poly)).
  unfold scenario.src_ar.
  repeat first [apply Forall_nil_2 | apply Forall_cons_2].
  all: left; intros H; apply (f_equal is_zero) in H; discriminate H.
Defined.

Lemma radiance_gainbias_linear_witness :
  np.item scenario.src_ar 1 1 = Some 30
  /\ np.eq_cell 30 (Some (-1)) = false
  /\ np.item (radiance.gainbias_ar 0.1 5 (Some (-1)) scenario.src_ar) 1 1
     = Some (0.1 * 30 + 5).
Proof.
  split; [reflexivity|]. split; [reflexivity|].
  apply (proj1 radiance_gainbias_linear 0.1 5 (Some (-1)) scenario.src_ar
           1%nat 1%nat 30 eq_refl eq_refl).
Defined.

Lemma scaling_endpoints_witness :
  np.item [[1; 255]] 0 0 = Some 1
  /\ is_finite ((12.65 - 3.2) / (255 - 1)) = true
  /\ np.item_eq (radiance.scaling_ar 3.2 12.65 1 255 (Some 0) [[1; 255]])
       0 0 3.2 = true.
Proof.
  split; [reflexivity|]. split; [reflexivity|].
  apply (proj1 scaling_endpoints 3.2 12.65 1 255 (Some 0) [[1; 255]]
           0%nat 0%nat 1 eq_refl eq_refl eq_refl eq_refl eq_refl eq_refl).
Defined.

Lemma existing_output_refused_witness :
  gdal.files scenario.world1 !! "out.tif"
  = Some (gdal.OtherFile "not to be touched")
  /\ gdal.exec memgdal.sys
       (brightness.dn_to_toa_bright (L := libm_poly) "in.tif" 0.1 5 607.76
          1260.56 "out.tif") scenario.world1
     = (Py.Raised (Py.ValueError "out.tif already exists!"),
        scenario.world1,
        [gdal.Ev (gdal.os_path_exists "out.tif") (Py.Return true)]).
Proof.
  split; [reflexivity|].
  exact (proj1 (proj2 (proj2 (proj2 (proj2 (proj2
           (existing_output_refused (L := libm_poly) memgdal.sys
              scenario.world1 "out.tif"
              (gdal.OtherFile "not to be touched") eq_refl))))))
           "in.tif" 0.1 5 607.76 1260.56).
Defined.

Lemma mather_formula_witness :
  datetime.valid scenario.new_year
  /\ (1 <= datetime.tm_yday scenario.new_year <= 366)%Z.
Proof.
  assert (Hv : datetime.valid scenario.new_year)
    by (unfold datetime.valid; cbn; lia).
  split; [exact Hv|].
  apply (proj2 (proj2 (mather_formula (L := libm_poly) scenario.new_year)) Hv).
Defined.

Lemma earth_sun_dist_errors_witness :
  au.earth_sun_dist (L := libm_poly) (py_date 2020 1 1) "Meeus"
  = Py.Raised
      (Py.TypeError "Date must be of type <class 'datetime.datetime'>!")
  /\ exists msg,
       au.earth_sun_dist (L := libm_poly) (py_datetime scenario.new_year)
         "meeus"
       = Py.Raised (Py.ValueError msg)
       /\ Forall (fun name => Py.contains msg name = true) au.formulas.
Proof.
  split.
  - apply (proj1 (earth_sun_dist_errors (L := libm_poly))).
    intros d H. discriminate H.
  - apply (proj2 (earth_sun_dist_errors (L := libm_poly))).
    unfold au.formulas. rewrite !elem_of_cons, elem_of_nil.
    intros H. repeat destruct H as [H|H]; discriminate H || exact H.
Defined.

Lemma toa_reflectance_is_gainbias_witness :
  np.item scenario.src_ar 0 0 = Some 10
  /\ np.eq_cell 10 (Some (-1)) = false
  /\ np.item (toar.toa_reflectance_ar 0.1 5 (Some (-1)) scenario.src_ar) 0 0
     = Some (0.1 * 10 + 5).
Proof.
  split; [reflexivity|]. split; [reflexivity|].
  apply (proj2 (proj2 (proj2 toa_reflectance_is_gainbias)) 0.1 5 (Some (-1))
           scenario.src_ar 0%nat 0%nat 10 eq_refl eq_refl).
Defined.

End Scenario.

(** ** Shapes, masks and compositions of the transforms *)

Section Shapes.
Context {L : Libm}.
Local Open Scope float_scope.

Lemma masked_as_map f no_data a :
  masked f no_data a
  = np.map (fun s => if np.eq_cell s no_data then np.as_float no_data else f s)
      a.
Proof.
  unfold masked, np.setitem, np.map, np.eq.
  induction a as [|row a IH]; cbn; [reflexivity|].
  f_equal; [|exact IH].
  induction row as [|s row IHrow]; cbn; [reflexivity|].
  f_equal. exact IHrow.
Qed.

Lemma np_map_ext (f g : float -> float) (a : np.ndarray) :
  Forall (Forall (fun s => f s = g s)) a -> np.map f a = np.map g a.
Proof.
  unfold np.map.
  induction 1 as [|row a Hrow _ IH]; cbn; [reflexivity|].
  f_equal; [|exact IH].
  induction Hrow as [|s row Hs _ IHrow]; cbn; [reflexivity|].
  f_equal; [exact Hs|exact IHrow].
Qed.

(** Nothing equals a NaN. *)
Lemma eq_cell_nan s x : is_nan x = true -> np.eq_cell s (Some x) = false.
Proof.
  unfold is_nan, np.eq_cell. rewrite !FloatAxioms.eqb_spec.
  destruct (Prim2SF x) as [sx|sx| |sx mx ex] eqn:E.
  - discriminate.
  - destruct sx; discriminate.
  - intros _. destruct (Prim2SF s) as [ss|ss| |ss ms es]; reflexivity.
  - rewrite SFeqb_finite_refl. discriminate.
Qed.

Lemma masked_no_mask f no_data a :
  no_mask no_data -> masked f no_data a = np.map f a.
Proof.
  intros H. rewrite masked_as_map. apply np_map_ext.
  apply Forall_forall. intros row _. apply Forall_forall. intros s _.
  destruct H as [->|(x & -> & Hx)]; cbn; [reflexivity|].
  change ((s =? x)) with (np.eq_cell s (Some x)).
  rewrite (eq_cell_nan s x Hx). reflexivity.
Qed.

(** *** Division by zero *)

Lemma SFspecial_not_finite (x : float) :
  SFspecial (Prim2SF x) = true -> is_finite x = false.
Proof.
  unfold is_finite, is_nan, is_infinity.
  rewrite !FloatAxioms.eqb_spec, FloatAxioms.abs_spec, Prim2SF_infinity.
  destruct (Prim2SF x) as [s|s| |s m e]; try discriminate; intros _.
  - destruct s; reflexivity.
  - reflexivity.
Qed.

Lemma is_zero_SF (x : float) : is_zero x = true -> SFzero (Prim2SF x) = true.
Proof.
  unfold is_zero, zero. rewrite FloatAxioms.eqb_spec, Prim2SF_zero.
  destruct (Prim2SF x) as [s|s| |s m e]; try reflexivity.
  - destruct s; discriminate.
  - discriminate.
  - destruct s; discriminate.
Qed.

Lemma SFdiv_zero_special (x z : spec_float) :
  SFzero z = true -> SFspecial (SFdiv prec emax x z) = true.
Proof.
  destruct z as [sz|sz| |sz mz ez]; try discriminate; intros _.
  destruct x as [sx|sx| |sx mx ex]; reflexivity.
Qed.






Lemma div_by_zero_not_finite (x z : float) :
  is_zero z = true -> is_finite (x / z) = false.
Proof.
  intros H. apply SFspecial_not_finite. rewrite FloatAxioms.div_spec.
  apply SFdiv_zero_special, is_zero_SF, H.
Qed.

(** *** Equal floats *)

(** Two floats that compare equal are the same float, zeros apart. *)
Lemma SFeqb_eq (x y : spec_float) :
  SFeqb x y = true -> SFzero x = false -> x = y.
Proof.
  unfold SFeqb, SFcompare.
  destruct x as [sx|sx| |sx mx ex], y as [sy|sy| |sy my ey];
    try discriminate; intros H Hz; try discriminate Hz;
    destruct sx, sy; try discriminate H; try reflexivity.
  all: destruct (Z.compare ex ey) eqn:Ce; try discriminate H.
  all: apply Z.compare_eq in Ce; subst ey.
  all: destruct (Pos.compare_cont Eq mx my) eqn:Cm; try discriminate H.
  all: apply Pos.compare_eq in Cm; subst my; reflexivity.
Qed.

Lemma eqb_eq (x y : float) :
  (x =? y) = true -> x <> neg_zero -> y <> neg_zero -> x = y.
Proof.
  rewrite FloatAxioms.eqb_spec. intros H Hx Hy. apply Prim2SF_inj.
  destruct (SFzero (Prim2SF x)) eqn:Z; [|apply SFeqb_eq; assumption].
  assert (Ex : Prim2SF x = S754_zero false).
  { destruct (Prim2SF x) as [[|]|sx| |sx mx ex] eqn:Ex;
      try discriminate Z; [|reflexivity].
    exfalso. apply Hx, Prim2SF_inj. rewrite Ex. symmetry.
    exact Prim2SF_neg_zero. }
  rewrite Ex in *.
  destruct (Prim2SF y) as [[|]|[|]| |[|] my ey] eqn:Ey;
    try discriminate H; [|reflexivity].
  exfalso. apply Hy, Prim2SF_inj. rewrite Ey. symmetry.
  exact Prim2SF_neg_zero.
Qed.

(** Every transform as a masked expression, toar's included. *)
Ltac as_masked :=
  repeat first
    [ rewrite radiance_gainbias_masked
    | rewrite radiance_scaling_masked
    | rewrite reflectance_gainbias_masked
    | rewrite reflectance_ref_masked
    | rewrite brightness_rad_masked
    | rewrite brightness_dn_masked
    | progress change (toar.toa_radiance_ar ?g ?b ?n ?a)
        with (radiance.gainbias_ar g b n a)
    | progress change (toar.toa_reflectance_ar ?g ?b ?n ?a)
        with (radiance.gainbias_ar g b n a)
    | progress change (toar.toa_brightness_ar ?k1 ?k2 ?n ?a)
        with (brightness.toa_rad_to_toa_bright_ar k1 k2 n a) ].

(** Each of the nine array transforms yields an array of the shape of its
    source: as many rows, each as long, whatever the parameters and the
    nodata value. *)
Theorem transforms_keep_shape (no_data : option float) (src_ar : np.ndarray) :
  let same (trg_ar : np.ndarray) := shape trg_ar = shape src_ar in
  (forall gain bias, same (radiance.gainbias_ar gain bias no_data src_ar)) /\
  (forall lmin lmax qcalmin qcalmax,
      same (radiance.scaling_ar lmin lmax qcalmin qcalmax no_data src_ar)) /\
  (forall gain bias sun_elev,
      same (reflectance.gainbias_ar gain bias sun_elev no_data src_ar)) /\
  (forall earth_sun_dist sun_elev esun,
      same (reflectance.ref_ar earth_sun_dist sun_elev esun no_data src_ar)) /\
  (forall k1 k2,
      same (brightness.toa_rad_to_toa_bright_ar k1 k2 no_data src_ar)) /\
  (forall gain bias k1 k2,
      same (brightness.dn_to_toa_bright_ar gain bias k1 k2 no_data src_ar)) /\
  (forall gain bias, same (toar.toa_radiance_ar gain bias no_data src_ar)) /\
  (forall gain bias, same (toar.toa_reflectance_ar gain bias no_data src_ar)) /\
  (forall k1 k2, same (toar.toa_brightness_ar k1 k2 no_data src_ar)).
Proof.
  intros same. subst same. cbv beta. unfold shape.
  repeat split; intros; as_masked; apply masked_shape.
Qed.

(** When the band has no nodata value ([GetNoDataValue] returned [None])
    or the nodata value is a NaN, the mask is empty: each transform is
    its expression at every cell, and no cell is set to the nodata
    value. *)
Theorem unmaskable_nodata_masks_nothing (no_data : option float)
  (src_ar : np.ndarray) :
  no_mask no_data ->
  (forall gain bias,
      radiance.gainbias_ar gain bias no_data src_ar
      = np.map (fun s => gain * s + bias) src_ar) /\
  (forall lmin lmax qcalmin qcalmax,
      radiance.scaling_ar lmin lmax qcalmin qcalmax no_data src_ar
      = np.map (fun s => ((lmax - lmin) / (qcalmax - qcalmin)) * (s - qcalmin)
                         + lmin) src_ar) /\
  (forall gain bias sun_elev,
      reflectance.gainbias_ar gain bias sun_elev no_data src_ar
      = np.map (fun s => (gain * s + bias) / np_sin (np_radians sun_elev))
          src_ar) /\
  (forall earth_sun_dist sun_elev esun,
      reflectance.ref_ar earth_sun_dist sun_elev esun no_data src_ar
      = np.map (ref_cell earth_sun_dist sun_elev esun) src_ar) /\
  (forall k1 k2,
      brightness.toa_rad_to_toa_bright_ar k1 k2 no_data src_ar
      = np.map (fun s => k2 / np_log (k1 / s + 1)) src_ar) /\
  (forall gain bias k1 k2,
      brightness.dn_to_toa_bright_ar gain bias k1 k2 no_data src_ar
      = np.map (fun s => k2 / np_log (k1 / (gain * s + bias) + 1)) src_ar).
Proof.
  intros H. repeat split; intros; as_masked; apply masked_no_mask; exact H.
Qed.


(** With gain 1 and bias 0, [radiance.gainbias] hands the source array
    back, nodata cells included, when no cell and no nodata value is a
    negative zero ([-0.0 + 0] is [+0.0]). *)
Theorem radiance_unit_gain_identity (no_data : option float)
  (src_ar : np.ndarray) :
  Forall (Forall (fun s => s <> neg_zero)) src_ar ->
  no_data <> Some neg_zero ->
  radiance.gainbias_ar 1 0 no_data src_ar = src_ar.
Proof.
  intros H Hn. rewrite radiance_gainbias_masked, masked_as_map.
  transitivity (np.map (fun s => s) src_ar).
  - apply np_map_ext.
    eapply Forall_impl; [exact H|]. intros row Hrow.
    eapply Forall_impl; [exact Hrow|]. intros s Hs. cbv beta.
    destruct (np.eq_cell s no_data) eqn:E.
    + destruct no_data as [n|]; [|discriminate E]. cbn in *.
      symmetry. apply eqb_eq; [exact E|exact Hs|congruence].
    + apply gain1_bias0, Hs.
  - unfold np.map. rewrite <- (list_fmap_id src_ar) at 2.
    apply list_fmap_ext. intros _ row _. apply list_fmap_id.
Qed.


(** [reflectance.gainbias] where the sine of the sun elevation is zero
    (a sun on the horizon): no data cell comes out finite, and nothing is
    raised. *)
Theorem reflectance_gainbias_zero_sine (gain bias sun_elev : float)
  (no_data : option float) (src_ar : np.ndarray) (i j : nat) (s : float) :
  is_zero (np_sin (np_radians sun_elev)) = true ->
  np.item src_ar i j = Some s -> np.eq_cell s no_data = false ->
  exists t,
    np.item (reflectance.gainbias_ar gain bias sun_elev no_data src_ar) i j
    = Some t
    /\ is_finite t = false.
Proof.
  intros Hz Hs Hn. eexists. split.
  - rewrite reflectance_gainbias_masked.
    apply (masked_data _ no_data src_ar i j s Hs Hn).
  - cbv beta. apply div_by_zero_not_finite, Hz.
Qed.

(** [toar.toa_brightness] is [brightness.toa_rad_to_toa_bright]: the same
    program and the same array transform. *)
Theorem toa_brightness_is_rad_to_bright :
  toar.toa_brightness = brightness.toa_rad_to_toa_bright
  /\ toar.toa_brightness_ar = brightness.toa_rad_to_toa_bright_ar.
Proof. split; reflexivity. Qed.

End Shapes.

Section ShapesScenario.
Local Open Scope float_scope.

Lemma unmaskable_nodata_masks_nothing_witness :
  no_mask (Some nan)
  /\ radiance.scaling_ar 3.2 12.65 1 255 (Some nan) scenario.src_ar
     = np.map (fun s => ((12.65 - 3.2) / (255 - 1)) * (s - 1) + 3.2)
         scenario.src_ar.
Proof.
  assert (H : no_mask (Some nan)).
  { right. exists nan. split; reflexivity. }
  split; [exact H|].
  exact (proj1 (proj2 (unmaskable_nodata_masks_nothing (L := libm_poly)
                         (Some nan) scenario.src_ar H))
           3.2 12.65 1 255).
Defined.


Lemma radiance_unit_gain_identity_witness :
  radiance.gainbias_ar 1 0 (Some (-1)) scenario.src_ar = scenario.src_ar.
Proof.
  apply radiance_unit_gain_identity.
  - unfold scenario.src_ar.
    repeat first [apply Forall_nil_2 | apply Forall_cons_2].
    all: intros H; apply (f_equal is_zero) in H; discriminate H.
  - intros H.
    apply (f_equal (fun v => is_zero (np.as_float v))) in H. discriminate H.
Defined.


Lemma reflectance_gainbias_zero_sine_witness :
  is_zero (poly_sin (np_radians (Libm := libm_poly) 0)) = true
  /\ exists t,
       np.item (reflectance.gainbias_ar (L := libm_poly) 0.1 5 0 (Some (-1))
                  scenario.src_ar) 0 0 = Some t
       /\ is_finite t = false.
Proof.
  split; [reflexivity|].
  exact (reflectance_gainbias_zero_sine (L := libm_poly) 0.1 5 0 (Some (-1))
           scenario.src_ar 0 0 10 eq_refl eq_refl eq_refl).
Defined.

End ShapesScenario.

(** ** What every run asks of GDAL *)

Section Traces.
Context {L : Libm}.
Import gdal.

Ltac conversion_runs H :=
  destruct H;
  [ unfold radiance.gainbias | unfold radiance.scaling
  | unfold reflectance.gainbias | unfold reflectance.ref
  | unfold brightness.toa_rad_to_toa_bright
  | unfold brightness.dn_to_toa_bright
  | unfold toar.toa_radiance | unfold toar.toa_reflectance
  | unfold toar.toa_brightness ];
  repeat first
    [ progress cbn [all_runs gdal.bind mbind gdal.prog_bind gdal.meth gdal.do]
    | match goal with
      | |- _ /\ _ => split
      | |- forall _, _ => intro
      | |- all_runs ?p _ =>
          match p with
          | context [gdal.meth ?o _ _] => is_var o; destruct o
          | context [if ?b then _ else _] => is_var b; destruct b
          end
      end ].

Ltac copied :=
  first [ left; reflexivity | right; repeat eexists ].

Ltac member :=
  first [ apply list_elem_of_here | apply list_elem_of_further; member ].

Ltac handles :=
  repeat first [ apply Forall_nil_2 | apply Forall_cons_2 ];
  first [ member | eexists; split; member ].

(** On every system and in every run, a conversion creates at most one
    dataset: at the output path, with the two sizes it read from the
    source, one band, [Float32]; the geotransform, projection and nodata
    value it sets are the ones it read from the source; a run that
    returns has created the dataset and set all three. *)
Theorem conversions_copy_metadata (input_scene output_scene : string)
  (p : prog unit) (S : system) (w : world) :
  conversion input_scene output_scene p ->
  target_like_source output_scene (exec S p w).1.1 (exec S p w).2.
Proof.
  intros H. apply all_runs_exec. conversion_runs H.
  all: unfold target_like_source; cbn.
  all: split; [copied|]; split; [copied|]; split; [copied|]; split; [copied|].
  all: intros Hr; first [discriminate Hr | repeat split; discriminate].
Qed.

(** On every system and in every run, a conversion reads sizes,
    geotransform, projection, nodata value and array only through the
    dataset [Open] returned and its band, and sets, writes and flushes
    only through the dataset [Create] returned and its band: the source
    is never written to. *)
Theorem conversions_read_source_change_target
  (input_scene output_scene : string) (p : prog unit) (S : system)
  (w : world) :
  conversion input_scene output_scene p ->
  reads_source_changes_target (exec S p w).2.
Proof.
  intros H.
  apply (all_runs_exec p (fun _ t => reads_source_changes_target t)).
  conversion_runs H.
  all: unfold reads_source_changes_target; cbn.
  all: repeat split; handles.
Qed.

(** On every system and in every run, a conversion asks for band 1 only,
    of the source and of the target: further bands of the source are
    not read. *)
Theorem conversions_use_first_band (input_scene output_scene : string)
  (p : prog unit) (S : system) (w : world) :
  conversion input_scene output_scene p ->
  Forall (fun n => n = 1%Z) (trace.band_numbers (exec S p w).2).
Proof.
  intros H.
  apply (all_runs_exec p
           (fun _ t => Forall (fun n => n = 1%Z) (trace.band_numbers t))).
  conversion_runs H.
  all: cbn; repeat first [apply Forall_nil_2 | apply Forall_cons_2];
    reflexivity.
Qed.

(** A source that GDAL does not open ([gdal.Open] returns [None], as it
    does without [UseExceptions]) makes each conversion raise
    [AttributeError] at [src_ds.GetRasterBand], after the existence check
    and the [Open]: nothing has been created. *)
Theorem unopened_source_raises (input_scene output_scene : string)
  (p : prog unit) (S : system) (w w' : world) :
  conversion input_scene output_scene p ->
  path_exists w output_scene = false ->
  handle S _ (Open input_scene) w = (Py.Return None, w') ->
  exec S p w
  = (Py.Raised
       (Py.AttributeError "'NoneType' object has no attribute 'GetRasterBand'"),
     w',
     [Ev (os_path_exists output_scene) (Py.Return false);
      Ev (Open input_scene) (Py.Return None)]).
Proof.
  intros H He Ho.
  destruct H; cbn; rewrite handle_exists, He; cbn; rewrite Ho; reflexivity.
Qed.

End Traces.

Section TracesScenario.
Local Open Scope float_scope.

Lemma conversions_copy_metadata_witness :
  target_like_source "out.tif"
    (gdal.exec memgdal.sys (radiance.gainbias "in.tif" 0.1 5 "out.tif")
       scenario.world0).1.1
    (gdal.exec memgdal.sys (radiance.gainbias "in.tif" 0.1 5 "out.tif")
       scenario.world0).2.
Proof.
  exact (conversions_copy_metadata (L := libm_poly) "in.tif" "out.tif" _
           memgdal.sys scenario.world0
           (conv_radiance_gainbias "in.tif" "out.tif" 0.1 5)).
Defined.

Lemma conversions_read_source_change_target_witness :
  reads_source_changes_target
    (gdal.exec memgdal.sys
       (reflectance.ref (L := libm_poly) "in.tif" 0.9833 45 1536 "out.tif")
       scenario.world0).2.
Proof.
  exact (conversions_read_source_change_target (L := libm_poly) "in.tif"
           "out.tif" _ memgdal.sys scenario.world0
           (conv_reflectance_ref "in.tif" "out.tif" 0.9833 45 1536)).
Defined.

Lemma conversions_use_first_band_witness :
  Forall (fun n => n = 1%Z)
    (trace.band_numbers
       (gdal.exec memgdal.sys
          (brightness.dn_to_toa_bright (L := libm_poly) "in.tif" 0.1 5 607.76
             1260.56 "out.tif")
          scenario.world0).2).
Proof.
  exact (conversions_use_first_band (L := libm_poly) "in.tif" "out.tif" _
           memgdal.sys scenario.world0
           (conv_brightness_dn "in.tif" "out.tif" 0.1 5 607.76 1260.56)).
Defined.

Lemma unopened_source_raises_witness :
  gdal.path_exists scenario.world0 "out.tif" = false
  /\ gdal.exec memgdal.sys
       (radiance.scaling "missing.tif" 3.2 12.65 1 255 "out.tif")
       scenario.world0
     = (Py.Raised
          (Py.AttributeError
             "'NoneType' object has no attribute 'GetRasterBand'"),
        scenario.world0,
        [gdal.Ev (gdal.os_path_exists "out.tif") (Py.Return false);
         gdal.Ev (gdal.Open "missing.tif") (Py.Return None)]).
Proof.
  split; [reflexivity|].
  exact (unopened_source_raises (L := libm_poly) "missing.tif" "out.tif" _
           memgdal.sys scenario.world0 scenario.world0
           (conv_radiance_scaling "missing.tif" "out.tif" 3.2 12.65 1 255)
           eq_refl eq_refl).
Defined.

End TracesScenario.

(** ** The Meeus branch: its integers and its day count *)

Section JulianDate.
Context {L : Libm}.
Import datetime.
Local Open Scope Z_scope.

Lemma trunc_is_spec x n : trunc_is x n = true -> Py.int x = Py.Return n.
Proof.
  unfold trunc_is, Py.int.
  destruct (Prim2SF x) as [s|s| |s m e]; try discriminate; intros H;
    apply Z.eqb_eq in H; subst n; [reflexivity|].
  f_equal. destruct (0 <=? e) eqn:E.
  - apply Z.leb_le in E. rewrite Z.shiftl_mul_pow2 by exact E. reflexivity.
  - apply Z.leb_gt in E. rewrite Z.shiftr_div_pow2 by lia. reflexivity.
Qed.

(** [float(n)] is the machine conversion of the integer [n]. *)
Lemma Z2F_of_uint63 (z : Z) :
  0 <= z < 2 ^ 62 -> Py.Z2F z = of_uint63 (Uint63.of_Z z).
Proof.
  intros H. unfold Py.Z2F.
  rewrite <- (SF2Prim_Prim2SF (of_uint63 (Uint63.of_Z z))).
  rewrite FloatAxioms.of_uint63_spec, Uint63.of_Z_spec.
  rewrite Z.mod_small; [reflexivity|].
  change Uint63.wB with (2 ^ 63). change (2 ^ 63) with (2 * 2 ^ 62). lia.
Qed.

Ltac machine_int :=
  rewrite Z2F_of_uint63
    by (change (2 ^ 62) with 4611686018427387904; lia).

Lemma forall_range (P : Z -> bool) (lo n : Z) :
  range_all P (Z.to_nat n) lo = true ->
  forall z, lo <= z < lo + n -> P z = true.
Proof.
  intros H z Hz. replace n with (Z.of_nat (Z.to_nat n)) in Hz by lia.
  revert lo H Hz. induction (Z.to_nat n) as [|k IH]; intros lo H Hz; [lia|].
  cbn [range_all] in H. apply andb_prop in H. destruct H as [H0 H1].
  destruct (Z.eq_dec z lo) as [->|Hne]; [exact H0|].
  apply (IH (lo + 1)); [exact H1|lia].
Qed.

(** The four truncations of the branch are exact on every year and month
    a [datetime] can hold: by running them. *)
Lemma int_century (Y : Z) :
  0 <= Y <= 9999 -> Py.int (Py.Z2F Y / 100) = Py.Return (Y / 100).
Proof.
  intros H. machine_int. apply trunc_is_spec.
  apply (forall_range
           (fun Y => trunc_is (of_uint63 (Uint63.of_Z Y) / 100) (Y / 100))
           0 10000);
    [vm_compute; reflexivity | lia].
Qed.

Lemma int_quarter (a : Z) :
  0 <= a <= 99 -> Py.int (Py.Z2F a / 4) = Py.Return (a / 4).
Proof.
  intros H. machine_int. apply trunc_is_spec.
  apply (forall_range
           (fun a => trunc_is (of_uint63 (Uint63.of_Z a) / 4) (a / 4)) 0 100);
    [vm_compute; reflexivity | lia].
Qed.

Lemma int_years (Y : Z) :
  0 <= Y <= 9999 ->
  Py.int (365.25 * Py.Z2F (Y + 4716)) = Py.Return (1461 * (Y + 4716) / 4).
Proof.
  intros H. machine_int. apply trunc_is_spec.
  change (1461 * (Y + 4716) / 4) with (1461 * (Y + 4716) / 2 ^ 2).
  rewrite <- Z.shiftr_div_pow2 by lia.
  apply (forall_range
           (fun Y => trunc_is (365.25 * of_uint63 (Uint63.of_Z (Y + 4716)))
                       (Z.shiftr (1461 * (Y + 4716)) 2)) 0 10000);
    [vm_compute; reflexivity | lia].
Qed.

Lemma int_months (M : Z) :
  3 <= M <= 14 ->
  Py.int (30.6001 * Py.Z2F (M + 1)) = Py.Return (306001 * (M + 1) / 10000).
Proof.
  intros H. machine_int. apply trunc_is_spec.
  apply (forall_range
           (fun M => trunc_is (30.6001 * of_uint63 (Uint63.of_Z (M + 1)))
                       (306001 * (M + 1) / 10000)) 3 12);
    [vm_compute; reflexivity | lia].
Qed.

(** On every valid [datetime] the Meeus branch returns, and its four
    [int(...)] of binary64 products and quotients are the exact integer
    quotients: [int(year / 100)] is [year / 100] rounded down,
    [int(365.25 * (year + 4716))] is [1461 * (year + 4716) / 4] rounded
    down, [int(30.6001 * (month + 1))] is [306001 * (month + 1) / 10000]
    rounded down.  No rounding of the floats moves a truncation. *)
Theorem meeus_integers_exact (d : datetime) :
  valid d ->
  au.earth_sun_dist (py_datetime d) "Meeus"
  = Py.Return (meeus.distance (meeus.julian_date d)).
Proof.
  intros (Hy & Hm & Hd & _).
  unfold au.earth_sun_dist, meeus.julian_date, meeus.distance, meeus.days,
    meeus.gregorian, meeus.shifted.
  cbn [String.eqb Ascii.eqb Bool.eqb].
  destruct (month d <=? 2) eqn:Em.
  - apply Z.leb_le in Em.
    rewrite (int_century (year d - 1)) by lia.
    cbn [mbind result_bind Py.rbind].
    rewrite (int_quarter ((year d - 1) / 100)).
    2:{ split; [apply Z.div_pos; lia|].
        apply Z.lt_succ_r. apply Z.div_lt_upper_bound; lia. }
    cbn [mbind result_bind Py.rbind].
    rewrite (int_years (year d - 1)) by lia.
    cbn [mbind result_bind Py.rbind].
    rewrite (int_months (month d + 12)) by lia.
    reflexivity.
  - apply Z.leb_gt in Em.
    rewrite (int_century (year d)) by lia.
    cbn [mbind result_bind Py.rbind].
    rewrite (int_quarter (year d / 100)).
    2:{ split; [apply Z.div_pos; lia|].
        apply Z.lt_succ_r. apply Z.div_lt_upper_bound; lia. }
    cbn [mbind result_bind Py.rbind].
    rewrite (int_years (year d)) by lia.
    cbn [mbind result_bind Py.rbind].
    rewrite (int_months (month d)) by lia.
    reflexivity.
Qed.

(** On every valid [datetime] and with each of the five formula names,
    [earth_sun_dist] returns a float: it raises nothing. *)
Theorem earth_sun_dist_returns (d : datetime) (formula : string) :
  valid d -> formula ∈ au.formulas ->
  exists v, au.earth_sun_dist (py_datetime d) formula = Py.Return v.
Proof.
  intros Hd Hf. unfold au.formulas in Hf.
  rewrite !elem_of_cons, elem_of_nil in Hf.
  destruct Hf as [ -> | [ -> | [ -> | [ -> | [ -> | [] ] ] ] ] ].
  - eexists. apply meeus_integers_exact, Hd.
  - eexists. reflexivity.
  - eexists. reflexivity.
  - eexists. reflexivity.
  - eexists. reflexivity.
Qed.

(** With every formula but Meeus, the outcome depends on the date through
    its day of the year only: the year and the time of day are not
    consulted. *)
Theorem day_of_year_formulas (d d' : datetime) (formula : string) :
  formula <> "Meeus" ->
  tm_yday d = tm_yday d' ->
  au.earth_sun_dist (py_datetime d) formula
  = au.earth_sun_dist (py_datetime d') formula.
Proof.
  intros Hf Hd. unfold au.earth_sun_dist.
  destruct (String.eqb_spec formula "Meeus") as [E|_]; [contradiction|].
  rewrite Hd. reflexivity.
Qed.

(** *** The day count *)

Lemma div_step (n c : Z) :
  0 < c -> n / c = (n - 1) / c + (if n mod c =? 0 then 1 else 0).
Proof.
  intros Hc.
  pose proof (Z.div_mod n c) as Hn. pose proof (Z.mod_pos_bound n c Hc) as Hr.
  destruct (Z.eqb_spec (n mod c) 0) as [E|E].
  - symmetry. apply (Z.div_unique n c _ 0); lia || idtac.
    pose proof (Z.div_mod (n - 1) c) as Hn1.
    pose proof (Z.mod_pos_bound (n - 1) c Hc) as Hr1.
    assert ((n - 1) / c = n / c - 1); [|lia].
    symmetry. apply (Z.div_unique (n - 1) c _ (c - 1)); lia.
  - assert ((n - 1) / c = n / c); [|lia].
    symmetry. apply (Z.div_unique (n - 1) c _ (n mod c - 1)); lia.
Qed.

Lemma mod_factor (n a b : Z) :
  0 < a -> 0 < b -> n mod (a * b) = 0 -> n mod a = 0.
Proof.
  intros Ha Hb H. rewrite Z.rem_mul_r in H by lia.
  pose proof (Z.mod_pos_bound n a Ha).
  pose proof (Z.mod_pos_bound (n / a) b Hb).
  nia.
Qed.

Ltac centuries y :=
  pose proof (mod_factor y 100 4); pose proof (mod_factor y 4 25);
  change (100 * 4) with 400 in *; change (4 * 25) with 100 in *; lia.

(** A year adds 365 days to [int(365.25 * (year + 4716))], and 366 when
    it is a multiple of 4. *)
Lemma years_step (y : Z) :
  1461 * (y + 4716) / 4
  = 1461 * (y - 1 + 4716) / 4 + (if y mod 4 =? 0 then 366 else 365).
Proof.
  pose proof (Z.div_mod y 4) as Hy.
  pose proof (Z.mod_pos_bound y 4) as Hr.
  set (q := y / 4) in *. set (r := y mod 4) in *.
  replace (1461 * (y + 4716)) with (1461 * q * 4 + 1461 * (r + 4716)) by lia.
  replace (1461 * (y - 1 + 4716)) with (1461 * q * 4 + 1461 * (r + 4715))
    by lia.
  rewrite !Z.div_add_l by lia.
  assert (Hcases : r = 0 \/ r = 1 \/ r = 2 \/ r = 3) by lia.
  destruct Hcases as [ -> | [ -> | [ -> | -> ] ] ];
    repeat match goal with
           | |- context [(1461 * ?a) / 4] =>
               let v := eval vm_compute in ((1461 * a) / 4) in
               change ((1461 * a) / 4) with v
           end;
    cbn; lia.
Qed.

Ltac leap_cases y :=
  rewrite !Z.div_div by lia;
  rewrite (years_step y), (div_step y 100), (div_step y (100 * 4)) by lia;
  unfold is_leap; change (100 * 4) with 400;
  destruct (Z.eqb_spec (y mod 4) 0), (Z.eqb_spec (y mod 100) 0),
    (Z.eqb_spec (y mod 400) 0);
  cbn; try lia; centuries y.

Lemma new_year_step (y : Z) :
  meeus.day_number (meeus.new_year (y + 1))
  = meeus.day_number (meeus.new_year y) + (if is_leap y then 366 else 365).
Proof.
  unfold meeus.day_number, meeus.days, meeus.gregorian, meeus.shifted,
    meeus.new_year. cbn.
  replace (y + 1 - 1) with y by lia.
  leap_cases y.
Qed.

Lemma day_number_in_year (d : datetime) :
  valid d ->
  meeus.day_number d
  = meeus.day_number (meeus.new_year (year d)) + tm_yday d - 1.
Proof.
  intros (_ & Hm & _).
  unfold meeus.day_number, meeus.days, meeus.gregorian, meeus.shifted,
    meeus.new_year, tm_yday, days_before_month. cbn [year month day].
  assert (Hcases : month d = 1 \/ month d = 2 \/ month d = 3 \/ month d = 4
                   \/ month d = 5 \/ month d = 6 \/ month d = 7
                   \/ month d = 8 \/ month d = 9 \/ month d = 10
                   \/ month d = 11 \/ month d = 12) by lia.
  repeat (destruct Hcases as [Hc|Hcases]; [rewrite Hc|]).
  all: try rewrite Hcases.
  all: cbn -[Z.div Z.mul Z.add Z.sub is_leap].
  all: repeat match goal with
         | |- context [(306001 * ?a) / 10000] =>
             let v := eval vm_compute in ((306001 * a) / 10000) in
             change ((306001 * a) / 10000) with v
         | |- context [Z.to_nat ?a] =>
             let v := eval vm_compute in (Z.to_nat a) in
             change (Z.to_nat a) with v
         end; cbv beta iota.
  1, 2: lia.
  all: leap_cases (year d).
Qed.

(** The integers of the Meeus branch count days as the calendar does: a
    valid date is [tm_yday - 1] days after 1 January of its year (the day
    of the year the other four formulas use), and 1 January of the next
    year is 365 days after that of this one, 366 in a leap year: the
    shift of January and February to the year before, the constants
    365.25 and 30.6001 and the Gregorian correction agree with
    [datetime]'s calendar on every date. *)
Theorem julian_day_counts_calendar_days (d : datetime) :
  valid d ->
  meeus.day_number d
  = meeus.day_number (meeus.new_year (year d)) + tm_yday d - 1
  /\ meeus.day_number (meeus.new_year (year d + 1))
     = meeus.day_number (meeus.new_year (year d))
       + (if is_leap (year d) then 366 else 365).
Proof.
  intros H. split; [apply day_number_in_year, H | apply new_year_step].
Qed.

End JulianDate.

Section JulianDateScenario.
Import Reals.

Lemma new_year_valid : datetime.valid scenario.new_year.
Proof. unfold datetime.valid. cbn. lia. Defined.

Lemma meeus_integers_exact_witness :
  datetime.valid scenario.new_year
  /\ au.earth_sun_dist (L := libm_poly) (py_datetime scenario.new_year) "Meeus"
     = Py.Return (meeus.distance (L := libm_poly)
                    (meeus.julian_date scenario.new_year)).
Proof.
  split; [exact new_year_valid|].
  exact (meeus_integers_exact (L := libm_poly) scenario.new_year
           new_year_valid).
Defined.

Lemma earth_sun_dist_returns_witness :
  exists v,
    au.earth_sun_dist (L := libm_poly) (py_datetime scenario.new_year)
      "Spencer"
    = Py.Return v.
Proof.
  refine (earth_sun_dist_returns (L := libm_poly) scenario.new_year "Spencer"
            new_year_valid _).
  unfold au.formulas. apply list_elem_of_further, list_elem_of_here.
Defined.

Lemma day_of_year_formulas_witness :
  au.earth_sun_dist (L := libm_poly) (py_datetime scenario.new_year) "Duffie"
  = au.earth_sun_dist (L := libm_poly)
      (py_datetime {| datetime.year := 2021; datetime.month := 1;
                      datetime.day := 1; datetime.hour := 12;
                      datetime.minute := 30; datetime.second := 0 |})
      "Duffie".
Proof.
  apply (day_of_year_formulas (L := libm_poly)).
  - intros H. apply String.eqb_eq in H. vm_compute in H. discriminate H.
  - reflexivity.
Defined.

Lemma julian_day_counts_calendar_days_witness :
  meeus.day_number scenario.new_year = 2458850%Z
  /\ meeus.day_number (meeus.new_year 2021) = (2458850 + 366)%Z.
Proof.
  exact (julian_day_counts_calendar_days scenario.new_year new_year_valid).
Defined.

Lemma siblings_in_range_witness :
  exists v : R,
    ideal.earth_sun_dist scenario.new_year "Mather" = Some v
    /\ (0.98 <= v <= 1.02)%R.
Proof.
  eexists. split; [reflexivity|].
  refine (siblings_in_range scenario.new_year "Mather" _ _ eq_refl).
  apply list_elem_of_further, list_elem_of_further, list_elem_of_here.
Defined.

Lemma duffie_range_witness :
  exists v : R,
    ideal.earth_sun_dist scenario.new_year "Duffie" = Some v
    /\ (0.967 <= v <= 1.033)%R.
Proof.
  eexists. split; [reflexivity|].
  exact (duffie_range scenario.new_year _ eq_refl).
Defined.

End JulianDateScenario.
